(** * BierBelly: a shallow embedding of [app.py]

    The file embeds the calorie calculators, the aggregation helper and the
    request handlers of the Flask application, and proves the properties the
    specification states about them.

    Modelling conventions.
    - A Python [float] is an IEEE-754 binary64 value: [spec_float] with
      precision 53 and maximal exponent 1024, rounded to nearest-even, as
      CPython computes on a C [double].
    - A Python [int] is a [Z].  An integer bound to an SQLite parameter has to
      fit a signed 64-bit word, otherwise [sqlite3] raises [OverflowError].
    - A Python exception is a value of [exn]; a computation that may raise
      returns a [result].
    - A table with a PRIMARY KEY is a [gmap] from the key to the row.
    - A handler takes the committed store and the Flask session and returns
      the response together with the store and the session the request
      leaves behind.  Statements that were not committed when the request
      ends are rolled back when the connection is closed.
    - A JSON request body is a JSON object, and the [email] and [password]
      fields of [register] and [login] are strings, as the front end sends
      them.  A Python [str] is a [string] with one character per code
      point, for the texts whose code points are below 256.
    - A REAL column gives back the float it was given, except that a
      negative zero comes back as a positive zero: SQLite keeps a REAL of
      integral value as an integer.
    - The [uuid4] identifier of a new row is an argument of the handler; an
      INSERT on an identifier in use raises [IntegrityError]. *)

From Stdlib Require Import ZArith String Ascii List Lia Bool.
From Stdlib Require Import Floats.SpecFloat.
From stdpp Require Import base option gmap strings list fin_maps.

Local Open Scope Z_scope.

(** ** Exceptions *)

Inductive exn : Set :=
  | ValueError
  | TypeError
  | OverflowError
  | ZeroDivisionError
  | KeyError
  | IntegrityError.

Inductive result (A : Type) : Type :=
  | Ok (a : A)
  | Raise (e : exn).

Arguments Ok {A} a.
Arguments Raise {A} e.

Definition rbind {A B : Type} (x : result A) (k : A -> result B) : result B :=
  match x with
  | Ok a => k a
  | Raise e => Raise e
  end.

Notation "x <- c1 ;; c2" := (rbind c1 (fun x => c2))
  (at level 100, c1 at next level, right associativity).

(** ** Python floats *)

Module PyFloat.

Definition float : Set := spec_float.

Definition prec : Z := 53.
Definition emax : Z := 1024.

Definition fmul (x y : float) : float := SFmul prec emax x y.
Definition fadd (x y : float) : float := SFadd prec emax x y.
Definition fsub (x y : float) : float := SFsub prec emax x y.
Definition fleb (x y : float) : bool := SFleb x y.
Definition fltb (x y : float) : bool := SFltb x y.

Definition is_zero (x : float) : bool :=
  match x with
  | S754_zero _ => true
  | _ => false
  end.

Definition is_finite (x : float) : bool :=
  match x with
  | S754_zero _ | S754_finite _ _ _ => true
  | S754_infinity _ | S754_nan => false
  end.

(** [x / y] on floats raises on a zero divisor. *)
Definition truediv (x y : float) : result float :=
  if is_zero y then Raise ZeroDivisionError else Ok (SFdiv prec emax x y).

(** The nearest float of an integer, ties to even. *)
Definition of_Z (z : Z) : float := binary_normalize prec emax z 0 false.

(** The conversion of an [int] operand in mixed arithmetic
    ([PyLong_AsDouble]): an integer that rounds to infinity raises. *)
Definition of_int (z : Z) : result float :=
  match of_Z z with
  | S754_infinity _ => Raise OverflowError
  | f => Ok f
  end.

(** The float of the decimal numeral [m * 10 ^ e10] with sign [neg],
    correctly rounded (what [float(str)] and a float literal denote). *)
Definition of_decimal (neg : bool) (m e10 : Z) : float :=
  match m with
  | Zpos p =>
      if 0 <=? e10
      then binary_round prec emax neg (Z.to_pos (m * 10 ^ e10)) 0
      else SFdiv prec emax (S754_finite neg p 0)
                 (S754_finite false (Z.to_pos (10 ^ (- e10))) 0)
  | _ => S754_zero neg
  end.

(** [round(x)] with one argument: the nearest integer, ties to even;
    [ValueError] on a NaN and [OverflowError] on an infinity. *)
Definition round_half_even (m : Z) (e : Z) : Z :=
  if 0 <=? e then m * 2 ^ e
  else
    let d := 2 ^ (- e) in
    let q := m / d in
    let r := m mod d in
    match 2 * r ?= d with
    | Lt => q
    | Gt => q + 1
    | Eq => if Z.even q then q else q + 1
    end.

Definition round (x : float) : result Z :=
  match x with
  | S754_zero _ => Ok 0
  | S754_infinity _ => Raise OverflowError
  | S754_nan => Raise ValueError
  | S754_finite s m e =>
      let n := round_half_even (Zpos m) e in
      Ok (if s then - n else n)
  end.

End PyFloat.

Import PyFloat.

(** ** [int(str)] and [float(str)]

    Both conversions first turn the white space that is not ASCII into
    spaces (below code point 256: U+0085 and U+00A0), then skip the ASCII
    white space at both ends: the characters 9 to 13 and 32.  The separators
    28 to 31, which [str.strip] removes, are not skipped. *)

Module PyParse.

Definition to_space (c : ascii) : ascii :=
  let n := Z.of_nat (nat_of_ascii c) in
  if (n =? 133) || (n =? 160) then " "%char else c.

Definition is_space (c : ascii) : bool :=
  let n := Z.of_nat (nat_of_ascii c) in
  ((9 <=? n) && (n <=? 13)) || (n =? 32).

Definition digit_of (c : ascii) : option Z :=
  let n := Z.of_nat (nat_of_ascii c) in
  if (48 <=? n) && (n <=? 57) then Some (n - 48) else None.

Fixpoint lstrip (l : list ascii) : list ascii :=
  match l with
  | c :: r => if is_space c then lstrip r else l
  | [] => []
  end.

Definition strip (l : list ascii) : list ascii :=
  rev (lstrip (rev (lstrip (map to_space l)))).

Definition sign (l : list ascii) : bool * list ascii :=
  match l with
  | "-"%char :: r => (true, r)
  | "+"%char :: r => (false, r)
  | _ => (false, l)
  end.

(** The digits that follow a first digit: a digit, or one underscore
    followed by a digit.  Returns the value, the number of digits and the
    text left. *)
Fixpoint scan_more (acc n : Z) (l : list ascii) : Z * Z * list ascii :=
  match l with
  | c :: r =>
      match digit_of c with
      | Some d => scan_more (10 * acc + d) (n + 1) r
      | None =>
          if Ascii.eqb c "_"
          then match r with
               | c2 :: r2 =>
                   match digit_of c2 with
                   | Some d => scan_more (10 * acc + d) (n + 1) r2
                   | None => (acc, n, l)
                   end
               | [] => (acc, n, l)
               end
          else (acc, n, l)
      end
  | [] => (acc, n, [])
  end.

(** A digit part: at least one digit; underscores only between digits. *)
Definition digitpart (acc : Z) (l : list ascii) : option (Z * Z * list ascii) :=
  match l with
  | c :: r =>
      match digit_of c with
      | Some d => Some (scan_more (10 * acc + d) 1 r)
      | None => None
      end
  | [] => None
  end.

(** [sys.get_int_max_str_digits()], as CPython sets it. *)
Definition max_str_digits : Z := 4300.

(** [int(s)] in base ten; a numeral of more than [max_str_digits] digits is
    refused. *)
Definition py_int (s : string) : result Z :=
  let '(neg, r) := sign (strip (list_ascii_of_string s)) in
  match digitpart 0 r with
  | Some (v, n, []) =>
      if n <=? max_str_digits then Ok (if neg then - v else v) else Raise ValueError
  | _ => Raise ValueError
  end.

Definition is_e (c : ascii) : bool := Ascii.eqb c "e" || Ascii.eqb c "E".

(** The optional exponent after a mantissa [m] with [nf] fraction digits. *)
Definition exponent (m nf : Z) (l : list ascii) : option (Z * Z) :=
  match l with
  | [] => Some (m, - nf)
  | c :: r =>
      if is_e c
      then let '(eneg, r2) := sign r in
           match digitpart 0 r2 with
           | Some (ev, _, []) => Some (m, (if eneg then - ev else ev) - nf)
           | _ => None
           end
      else None
  end.

(** A decimal numeral without sign: mantissa and power of ten. *)
Definition decimal (l : list ascii) : option (Z * Z) :=
  match digitpart 0 l with
  | Some (ip, _, rest) =>
      match rest with
      | "."%char :: rest2 =>
          match digitpart ip rest2 with
          | Some (m, nf, rest3) => exponent m nf rest3
          | None => exponent ip 0 rest2
          end
      | _ => exponent ip 0 rest
      end
  | None =>
      match l with
      | "."%char :: rest2 =>
          match digitpart 0 rest2 with
          | Some (m, nf, rest3) => exponent m nf rest3
          | None => None
          end
      | _ => None
      end
  end.

Definition lower (c : ascii) : ascii :=
  let n := nat_of_ascii c in
  if ((65 <=? n) && (n <=? 90))%nat then ascii_of_nat (n + 32) else c.

Definition keyword (l : list ascii) : string :=
  string_of_list_ascii (map lower l).

(** [float(s)]. *)
Definition py_float (s : string) : result float :=
  let '(neg, r) := sign (strip (list_ascii_of_string s)) in
  match decimal r with
  | Some (m, e10) => Ok (of_decimal neg m e10)
  | None =>
      let k := keyword r in
      if String.eqb k "inf" || String.eqb k "infinity"
      then Ok (S754_infinity neg)
      else if String.eqb k "nan" then Ok S754_nan
      else Raise ValueError
  end.

(** A float literal of the program text. *)
Definition literal (s : string) : float :=
  match py_float s with
  | Ok f => f
  | Raise _ => S754_nan
  end.

End PyParse.

Import PyParse.

(** ** JSON values (request bodies and the stored metrics) *)

Local Set Warnings "-register-all".

Inductive json : Type :=
  | JNull
  | JBool (b : bool)
  | JInt (z : Z)
  | JFloat (f : float)
  | JStr (s : string)
  | JArr (l : list json)
  | JObj (l : list (string * json)).

(** A [dict] with string keys, as [request.get_json()] and [json.loads]
    return it: an association list read at its first binding of a key. *)
Definition dict : Type := list (string * json).

Fixpoint dict_find (k : string) (d : dict) : option json :=
  match d with
  | [] => None
  | (k', v) :: r => if String.eqb k k' then Some v else dict_find k r
  end.

(** [k in d] *)
Definition dict_has (k : string) (d : dict) : bool :=
  match dict_find k d with
  | Some _ => true
  | None => false
  end.

(** [d.get(k)]: [None] for a missing key. *)
Definition dict_get (k : string) (d : dict) : json :=
  match dict_find k d with
  | Some v => v
  | None => JNull
  end.

(** [d[k]] *)
Definition dict_item (k : string) (d : dict) : result json :=
  match dict_find k d with
  | Some v => Ok v
  | None => Raise KeyError
  end.

Definition str_truthy (s : string) : bool := negb (String.eqb s "").

(** Truth value of a JSON value in a condition. *)
Definition truthy (v : json) : bool :=
  match v with
  | JNull => false
  | JBool b => b
  | JInt z => negb (z =? 0)
  | JFloat f => negb (is_zero f)
  | JStr s => str_truthy s
  | JArr l => match l with [] => false | _ => true end
  | JObj l => match l with [] => false | _ => true end
  end.

(** The float a value denotes as the other operand of a float in [*]:
    integers and booleans are converted, anything else is a [TypeError]. *)
Definition operand (v : json) : result float :=
  match v with
  | JFloat f => Ok f
  | JInt z => of_int z
  | JBool b => of_int (if b then 1 else 0)
  | _ => Raise TypeError
  end.

(** [float(v)] *)
Definition float_of (v : json) : result float :=
  match v with
  | JFloat f => Ok f
  | JInt z => of_int z
  | JBool b => of_int (if b then 1 else 0)
  | JStr s => py_float s
  | _ => Raise TypeError
  end.

(** ** Configuration tables *)

Record preset : Set := { p_abv : float; p_volume_oz : float }.

(** [DRINK_PRESETS].  The display names are left out.  The [ipa] entry is
    written with the integers 7 and 12 in the source; [add_drink] replaces
    both by form values before any use. *)
Definition DRINK_PRESETS : list (string * preset) :=
  [ ("beer"%string, {| p_abv := literal "5.0"; p_volume_oz := literal "12.0" |});
    ("ipa"%string, {| p_abv := of_Z 7; p_volume_oz := of_Z 12 |});
    ("wine"%string, {| p_abv := literal "12.0"; p_volume_oz := literal "5.0" |});
    ("shot_spirit"%string, {| p_abv := literal "40.0"; p_volume_oz := literal "1.5" |});
    ("mixed_drink"%string, {| p_abv := literal "40.0"; p_volume_oz := literal "1.5" |});
    ("mixed_drink_diet"%string,
      {| p_abv := literal "40.0"; p_volume_oz := literal "1.5" |}) ].

Definition EXERCISE_METS : list (string * float) :=
  [ ("walking"%string, literal "3.5");
    ("running"%string, literal "8.0");
    ("biking"%string, literal "6.0");
    ("swimming"%string, literal "7.0");
    ("strength_training"%string, literal "4.5") ].

Fixpoint assoc {A : Type} (k : string) (l : list (string * A)) : option A :=
  match l with
  | [] => None
  | (k', v) :: r => if String.eqb k k' then Some v else assoc k r
  end.

Fixpoint str_in (k : string) (l : list string) : bool :=
  match l with
  | [] => false
  | k' :: r => String.eqb k k' || str_in k r
  end.

(** ** The calculators *)

Definition calculate_calories (abv volume_oz : float) : result Z :=
  let volume_L := fmul volume_oz (literal "0.0295735") in
  q <- truediv abv (of_Z 100) ;;
  PyFloat.round (fmul (fmul (fmul volume_L q) (of_Z 789)) (of_Z 7)).

Definition calculate_burned_calories (met : float) (weight_kg : json) (minutes : float)
  : result Z :=
  time_hours <- truediv minutes (of_Z 60) ;;
  w <- operand weight_kg ;;
  PyFloat.round (fmul (fmul met w) time_hours).

(** ** The store

    One [gmap] per table, keyed by the PRIMARY KEY column.  The [name] column
    of [drinks] is a display string built from the form fields; no control
    flow reads it and it is left out.  [metrics] holds the JSON text written
    by [json.dumps]; it is kept as the object that [json.loads] reads back,
    [None] for SQL NULL. *)

Module User.
Record row : Type := { password : string; metrics : option dict }.
End User.

Module Session.
Record row : Set :=
  { user_email : string; name : string; date : string; total_calories : Z }.
End Session.

Module Drink.
Record row : Set :=
  { session_id : string; calories : Z; abv : float; volume_oz : float; count : Z }.
End Drink.

Module Exercise.
Record row : Set :=
  { session_id : string; type : string; minutes : float; calories_burned : Z }.
End Exercise.

Record db : Type :=
  { users : gmap string User.row;
    sessions : gmap string Session.row;
    drinks : gmap string Drink.row;
    exercises : gmap string Exercise.row }.

Definition with_users (u : gmap string User.row) (d : db) : db :=
  {| users := u; sessions := sessions d; drinks := drinks d; exercises := exercises d |}.

Definition with_sessions (s : gmap string Session.row) (d : db) : db :=
  {| users := users d; sessions := s; drinks := drinks d; exercises := exercises d |}.

Definition with_drinks (x : gmap string Drink.row) (d : db) : db :=
  {| users := users d; sessions := sessions d; drinks := x; exercises := exercises d |}.

Definition with_exercises (x : gmap string Exercise.row) (d : db) : db :=
  {| users := users d; sessions := sessions d; drinks := drinks d; exercises := x |}.

(** A Python [int] bound to a statement parameter. *)
Definition bind_int (z : Z) : result Z :=
  if (- 2 ^ 63 <=? z) && (z <? 2 ^ 63) then Ok z else Raise OverflowError.

(** The float that a REAL column gives back for the float it was given. *)
Definition real_stored (f : float) : float :=
  match f with
  | S754_zero _ => S754_zero false
  | _ => f
  end.

(** A Python [float] bound to a REAL NOT NULL column: a NaN is stored as
    NULL, which the column refuses; the result is the float that is read
    back from the column. *)
Definition bind_real (f : float) : result float :=
  match f with
  | S754_nan => Raise IntegrityError
  | _ => Ok (real_stored f)
  end.

(** ** The Flask session (signed cookie); the [permanent] flag, which only
    sets the cookie lifetime, is left out. *)

Module Flask.
Record session : Set :=
  { logged_in : bool;
    user_email : option string;
    current_session_id : option string }.
End Flask.

Definition get_current_user_email (s : Flask.session) : option string :=
  if Flask.logged_in s
  then match Flask.user_email s with
       | Some e => if str_truthy e then Some e else None
       | None => None
       end
  else None.

(** ** Responses *)

Record dashboard : Type :=
  { session_name : string;
    total_calories_consumed : Z;
    total_calories_burned : Z;
    net_calories : Z;
    drinks_list : list (string * Drink.row);
    logged_exercises : list (string * Exercise.row);
    exercise_times : list (string * Z) }.

Inductive body : Type :=
  | Error (msg : string)
  | Message (msg : string)
  | DrinkAdded (id : string) (drink : Drink.row)
  | DrinkCount (msg : string) (id : string) (calories : Z) (count : Z)
  | DrinkRemoved (removed_id : string)
  | ExerciseAdded (id : string) (type : string) (minutes : float) (calories_burned : Z)
  | ExerciseUpdated (id : string) (minutes : float) (calories_burned : Z)
  | ExerciseRemoved (removed_id : string)
  | DashboardData (data : dashboard)
  | Unhandled (e : exn).

Record response : Type := { status : Z; payload : body }.

Record outcome : Type := { resp : response; store : db; sess : Flask.session }.

Definition respond (code : Z) (b : body) (d : db) (s : Flask.session) : outcome :=
  {| resp := {| status := code; payload := b |}; store := d; sess := s |}.

(** An exception that no handler of the route catches: Flask answers 500 and
    nothing of the request is committed. *)
Definition unhandled (e : exn) (d : db) (s : Flask.session) : outcome :=
  respond 500 (Unhandled e) d s.

(** ** The aggregation helper *)

Definition session_drinks (d : db) (sid : string) : list (string * Drink.row) :=
  filter (fun kv => Drink.session_id kv.2 = sid) (map_to_list (drinks d)).

Definition session_exercises (d : db) (sid : string) : list (string * Exercise.row) :=
  filter (fun kv => Exercise.session_id kv.2 = sid) (map_to_list (exercises d)).

Definition set_total (t : Z) (r : Session.row) : Session.row :=
  {| Session.user_email := Session.user_email r;
     Session.name := Session.name r;
     Session.date := Session.date r;
     Session.total_calories := t |}.

Definition update_session_calories (d : db) (session_id : string) : result (db * Z) :=
  let new_total_calories :=
    fold_left (fun acc drink => acc + Drink.calories drink.2 * Drink.count drink.2)
              (session_drinks d session_id) 0 in
  t <- bind_int new_total_calories ;;
  Ok (with_sessions (alter (set_total t) session_id (sessions d)) d, new_total_calories).

(** ** Routes *)

Definition register (d : db) (s : Flask.session) (email password : string) : outcome :=
  match users d !! email with
  | Some _ => respond 409 (Error "User already exists") d s
  | None =>
      respond 200 (Message "Registration successful")
        (with_users (<[email := {| User.password := password; User.metrics := None |}]>
                       (users d)) d)
        {| Flask.logged_in := true;
           Flask.user_email := Some email;
           Flask.current_session_id := None |}
  end.

(** [SELECT id FROM sessions WHERE user_email = ? ORDER BY date DESC LIMIT 1].
    Which of several rows of the latest date is taken is left open by SQL and
    decided by SQLite on the order of its table; the store keeps no such
    order, and the first of the scan of the map stands for it.  No statement
    below depends on the row taken among rows of equal date. *)
Definition latest_session (d : db) (email : string) : option string :=
  let rows := filter (fun kv => Session.user_email kv.2 = email) (map_to_list (sessions d)) in
  fst <$> fold_left
    (fun best kv =>
       match best with
       | Some b => if String.ltb (Session.date b.2) (Session.date kv.2)
                   then Some kv else best
       | None => Some kv
       end) rows None.

Definition login (d : db) (s : Flask.session) (email password : string) : outcome :=
  match users d !! email with
  | Some user =>
      if String.eqb (User.password user) password
      then respond 200 (Message "Login successful") d
             {| Flask.logged_in := true;
                Flask.user_email := Some email;
                Flask.current_session_id := latest_session d email |}
      else respond 401 (Error "Invalid email or password") d s
  | None => respond 401 (Error "Invalid email or password") d s
  end.

Definition set_metrics (m : dict) (r : User.row) : User.row :=
  {| User.password := User.password r; User.metrics := Some m |}.

Definition set_user_metrics (d : db) (s : Flask.session) (data : dict) : outcome :=
  match get_current_user_email s with
  | None => respond 401 (Error "Not logged in") d s
  | Some user_email =>
      if forallb (fun field => dict_has field data)
                 ["age"; "height_cm"; "weight_kg"; "sex"]%string
      then respond 200 (Message "Metrics saved")
             (with_users (alter (set_metrics data) user_email (users d)) d) s
      else respond 400 (Error "Missing required metrics data") d s
  end.

Definition delete_session (d : db) (s : Flask.session) (session_id : string) : outcome :=
  match get_current_user_email s with
  | None => respond 401 (Error "Not logged in") d s
  | Some user_email =>
      match sessions d !! session_id with
      | Some session_check =>
          if String.eqb (Session.user_email session_check) user_email
          then
            let d1 := with_drinks
                        (filter (fun kv => Drink.session_id kv.2 <> session_id) (drinks d)) d in
            let d2 := with_exercises
                        (filter (fun kv => Exercise.session_id kv.2 <> session_id)
                                (exercises d1)) d1 in
            let d3 := with_sessions (delete session_id (sessions d2)) d2 in
            let s' :=
              if decide (Flask.current_session_id s = Some session_id)
              then {| Flask.logged_in := Flask.logged_in s;
                      Flask.user_email := Flask.user_email s;
                      Flask.current_session_id := None |}
              else s in
            respond 200 (Message "Session and associated data deleted successfully") d3 s'
          else respond 404 (Error "Session not found or unauthorized") d s
      | None => respond 404 (Error "Session not found or unauthorized") d s
      end
  end.

(** The fields of the [add_drink] form; [None] is a missing field. *)
Record drink_form : Set :=
  { drink_type : option string;
    custom_name : option string;
    custom_abv : option string;
    liquid_ounces : option string }.

(** [int(count_str) if count_str and float(count_str) >= 1 else 1] *)
Definition shots_count (count_str : option string) : result Z :=
  match count_str with
  | Some c =>
      if str_truthy c
      then f <- py_float c ;;
           if fleb (of_Z 1) f then py_int c else Ok 1
      else Ok 1
  | None => Ok 1
  end.

(** [float(request.form.get(field))] *)
Definition form_float (v : option string) : result float :=
  match v with
  | Some t => py_float t
  | None => Raise TypeError
  end.

(** Step 1 of [add_drink]: the effective ABV, volume and count, or the
    validation message of the [except] clause that ends the request. *)
Inductive resolved : Set :=
  | Resolved (abv volume_oz : float) (count : Z)
  | Rejected (msg : string)
  | Escaped (e : exn).

Definition dynamic_properties (drink_type : string) (p : preset) (form : drink_form)
  : resolved :=
  let abv := p_abv p in
  let volume_oz := p_volume_oz p in
  let count := 1 in
  let is_mixed_drink := str_in drink_type ["mixed_drink"; "mixed_drink_diet"]%string in
  if is_mixed_drink
  then match shots_count (liquid_ounces form) with
       | Ok count => Resolved abv volume_oz count
       | Raise ValueError => Rejected "Invalid number for shots count"
       | Raise e => Escaped e
       end
  else if negb (String.eqb drink_type "shot_spirit")
  then match (abv <- form_float (custom_abv form) ;;
              volume_oz <- form_float (liquid_ounces form) ;;
              Ok (abv, volume_oz)) with
       | Ok (abv, volume_oz) => Resolved abv volume_oz count
       | Raise TypeError | Raise ValueError =>
           Rejected "Missing or Invalid number for ABV or Volume"
       | Raise e => Escaped e
       end
  else Resolved abv volume_oz count.

(** Step 3 of [add_drink]. *)
Definition calories_per_serving (drink_type : string) (alcohol_calories_per_serving : Z) : Z :=
  let c := if str_in drink_type ["shot_spirit"; "mixed_drink"; "mixed_drink_diet"]%string
           then 100 else alcohol_calories_per_serving in
  let c := if String.eqb drink_type "mixed_drink" then c + 50 else c in
  let c := if String.eqb drink_type "beer" then c + 20 else c in
  let c := if String.eqb drink_type "wine" then c + 30 else c in
  let c := if String.eqb drink_type "ipa" then c + 75 else c in
  c.

(** The row that [drinks] gives back for the values of the INSERT. *)
Definition stored_drink (r : Drink.row) : Drink.row :=
  {| Drink.session_id := Drink.session_id r;
     Drink.calories := Drink.calories r;
     Drink.abv := real_stored (Drink.abv r);
     Drink.volume_oz := real_stored (Drink.volume_oz r);
     Drink.count := Drink.count r |}.

Definition insert_drink (d : db) (id : string) (r : Drink.row) : result db :=
  calories <- bind_int (Drink.calories r) ;;
  abv <- bind_real (Drink.abv r) ;;
  volume_oz <- bind_real (Drink.volume_oz r) ;;
  count <- bind_int (Drink.count r) ;;
  match drinks d !! id with
  | Some _ => Raise IntegrityError
  | None =>
      Ok (with_drinks
            (<[id := {| Drink.session_id := Drink.session_id r;
                        Drink.calories := calories;
                        Drink.abv := abv;
                        Drink.volume_oz := volume_oz;
                        Drink.count := count |}]> (drinks d)) d)
  end.

(** [drink_id] is the fresh [uuid4] string of the request.  The test
    [abv is None or volume_oz is None] of the source never holds, every
    preset having both values, and has no counterpart here. *)
Definition add_drink (d : db) (s : Flask.session) (session_id : string)
    (form : drink_form) (drink_id : string) : outcome :=
  match get_current_user_email s with
  | None => respond 401 (Error "Not logged in") d s
  | Some user_email =>
  match sessions d !! session_id with
  | None => respond 404 (Error "Session not found or unauthorized") d s
  | Some session_check =>
  if negb (String.eqb (Session.user_email session_check) user_email)
  then respond 404 (Error "Session not found or unauthorized") d s
  else
  match drink_type form with
  | None => respond 400 (Error "Invalid drink type") d s
  | Some drink_type =>
  match assoc drink_type DRINK_PRESETS with
  | None => respond 400 (Error "Invalid drink type") d s
  | Some preset =>
  match dynamic_properties drink_type preset form with
  | Rejected msg => respond 400 (Error msg) d s
  | Escaped e => unhandled e d s
  | Resolved abv volume_oz count =>
  match calculate_calories abv volume_oz with
  | Raise e => unhandled e d s
  | Ok alcohol_calories_per_serving =>
      let new_drink :=
        {| Drink.session_id := session_id;
           Drink.calories := calories_per_serving drink_type alcohol_calories_per_serving;
           Drink.abv := abv;
           Drink.volume_oz := volume_oz;
           Drink.count := count |} in
      match (d1 <- insert_drink d drink_id new_drink ;;
             update_session_calories d1 session_id) with
      | Ok (d2, _) => respond 200 (DrinkAdded drink_id new_drink) d2 s
      | Raise _ => respond 500 (Error "Failed to add drink") d s
      end
  end end end end end end.

(** The row of the ownership query of [update_drink]: the drink, joined
    with its session, filtered by drink id, session id and owner. *)
Definition owned_drink (d : db) (drink_id session_id user_email : string)
  : option Drink.row :=
  match drinks d !! drink_id with
  | Some r =>
      if String.eqb (Drink.session_id r) session_id
      then match sessions d !! session_id with
           | Some sr => if String.eqb (Session.user_email sr) user_email
                        then Some r else None
           | None => None
           end
      else None
  | None => None
  end.

Definition set_count (n : Z) (r : Drink.row) : Drink.row :=
  {| Drink.session_id := Drink.session_id r;
     Drink.calories := Drink.calories r;
     Drink.abv := Drink.abv r;
     Drink.volume_oz := Drink.volume_oz r;
     Drink.count := n |}.

(** [UPDATE drinks SET count = ? WHERE id = ?] *)
Definition update_count (d : db) (drink_id : string) (new_count : Z) : result db :=
  n <- bind_int new_count ;;
  Ok (with_drinks (alter (set_count n) drink_id (drinks d)) d).

Definition is_action (v : json) (a : string) : bool :=
  match v with
  | JStr t => String.eqb t a
  | _ => false
  end.

Definition update_drink (d : db) (s : Flask.session) (session_id drink_id : string)
    (data : dict) : outcome :=
  match get_current_user_email s with
  | None => respond 401 (Error "Not logged in") d s
  | Some user_email =>
  match owned_drink d drink_id session_id user_email with
  | None => respond 404 (Error "Drink ID not found in session or unauthorized") d s
  | Some drink_row =>
      let action := dict_get "action" data in
      let current_count := Drink.count drink_row in
      let calories := Drink.calories drink_row in
      let finish (step : result (db * body)) : outcome :=
        match (r <- step ;;
               t <- update_session_calories r.1 session_id ;;
               Ok (t.1, r.2)) with
        | Ok (d2, response_data) => respond 200 response_data d2 s
        | Raise _ => respond 500 (Error "Internal server error") d s
        end in
      if is_action action "increment"
      then
        let new_count := current_count + 1 in
        finish (d1 <- update_count d drink_id new_count ;;
                Ok (d1, DrinkCount "Drink count incremented" drink_id calories new_count))
      else if is_action action "decrement"
      then
        let new_count := current_count - 1 in
        if new_count <=? 0
        then finish (Ok (with_drinks (delete drink_id (drinks d)) d,
                         DrinkRemoved drink_id))
        else finish (d1 <- update_count d drink_id new_count ;;
                     Ok (d1, DrinkCount "Drink count decremented" drink_id calories new_count))
      else respond 400 (Error "Invalid action specified") d s
  end end.

(** [SELECT metrics FROM users WHERE email = ?] followed by the test
    [not row or not row['metrics']]: the metrics object when it is set. *)
Definition metrics_of (d : db) (user_email : string) : option dict :=
  match users d !! user_email with
  | Some u => User.metrics u
  | None => None
  end.

Definition insert_exercise (d : db) (id : string) (r : Exercise.row) : result db :=
  minutes <- bind_real (Exercise.minutes r) ;;
  calories_burned <- bind_int (Exercise.calories_burned r) ;;
  match exercises d !! id with
  | Some _ => Raise IntegrityError
  | None =>
      Ok (with_exercises
            (<[id := {| Exercise.session_id := Exercise.session_id r;
                        Exercise.type := Exercise.type r;
                        Exercise.minutes := minutes;
                        Exercise.calories_burned := calories_burned |}]>
               (exercises d)) d)
  end.

(** [exercise_id] is the fresh [uuid4] string of the request. *)
Definition add_exercise (d : db) (s : Flask.session) (session_id : string)
    (data : dict) (exercise_id : string) : outcome :=
  match get_current_user_email s with
  | None => respond 401 (Error "Not logged in") d s
  | Some user_email =>
  match sessions d !! session_id with
  | None => respond 404 (Error "Session not found or unauthorized") d s
  | Some session_check =>
  if negb (String.eqb (Session.user_email session_check) user_email)
  then respond 404 (Error "Session not found or unauthorized") d s
  else
  match metrics_of d user_email with
  | None =>
      respond 400 (Error "Metrics not set. Please set metrics before logging exercise.") d s
  | Some metrics =>
  match dict_item "weight_kg" metrics with
  | Raise e => unhandled e d s
  | Ok weight_kg =>
      let exercise_type := dict_get "exercise_type" data in
      let minutes_raw := dict_get "minutes" data in
      let invalid := respond 400 (Error "Invalid exercise type or minutes") d s in
      match exercise_type with
      | JArr _ | JObj _ => unhandled TypeError d s
      | JStr exercise_type =>
          match assoc exercise_type EXERCISE_METS with
          | None => invalid
          | Some met =>
              if negb (truthy minutes_raw) then invalid
              else
                match float_of minutes_raw with
                | Raise ValueError => respond 400 (Error "Invalid format for minutes") d s
                | Raise _ => respond 500 (Error "Failed to add exercise") d s
                | Ok minutes =>
                    if fleb minutes (of_Z 0)
                    then respond 400 (Error "Minutes must be a positive number") d s
                    else
                      match (calories_burned <-
                               calculate_burned_calories met weight_kg minutes ;;
                             d1 <- insert_exercise d exercise_id
                                     {| Exercise.session_id := session_id;
                                        Exercise.type := exercise_type;
                                        Exercise.minutes := minutes;
                                        Exercise.calories_burned := calories_burned |} ;;
                             Ok (d1, calories_burned)) with
                      | Ok (d1, calories_burned) =>
                          respond 200
                            (ExerciseAdded exercise_id exercise_type minutes calories_burned)
                            d1 s
                      | Raise ValueError =>
                          respond 400 (Error "Invalid format for minutes") d s
                      | Raise _ => respond 500 (Error "Failed to add exercise") d s
                      end
                end
          end
      | _ => invalid
      end
  end end end end.

Definition owned_exercise (d : db) (exercise_id session_id user_email : string)
  : option Exercise.row :=
  match exercises d !! exercise_id with
  | Some r =>
      if String.eqb (Exercise.session_id r) session_id
      then match sessions d !! session_id with
           | Some sr => if String.eqb (Session.user_email sr) user_email
                        then Some r else None
           | None => None
           end
      else None
  | None => None
  end.

Definition set_minutes (m : float) (c : Z) (r : Exercise.row) : Exercise.row :=
  {| Exercise.session_id := Exercise.session_id r;
     Exercise.type := Exercise.type r;
     Exercise.minutes := m;
     Exercise.calories_burned := c |}.

(** [UPDATE exercises SET minutes = ?, calories_burned = ? WHERE id = ?] *)
Definition update_minutes (d : db) (exercise_id : string) (m : float) (c : Z) : result db :=
  m' <- bind_real m ;;
  c' <- bind_int c ;;
  Ok (with_exercises (alter (set_minutes m' c') exercise_id (exercises d)) d).

(** [json.loads(row['metrics'])['weight_kg']] of [update_exercise], where
    neither the row nor the column is tested before use. *)
Definition weight_unchecked (d : db) (user_email : string) : result json :=
  match users d !! user_email with
  | None => Raise TypeError
  | Some u =>
      match User.metrics u with
      | None => Raise TypeError
      | Some metrics => dict_item "weight_kg" metrics
      end
  end.

Definition minute_change : float := of_Z 10.

(** The part of [update_exercise] that follows the choice of [new_minutes]:
    delete the row when the new duration is not positive, otherwise store it
    with the recomputed calories. *)
Definition persist_minutes (d : db) (s : Flask.session) (exercise_id : string)
    (met : float) (weight_kg : json) (new_minutes : float) : outcome :=
  if fleb new_minutes (of_Z 0)
  then respond 200 (ExerciseRemoved exercise_id)
         (with_exercises (delete exercise_id (exercises d)) d) s
  else
    match (new_calories_burned <-
             calculate_burned_calories met weight_kg new_minutes ;;
           d1 <- update_minutes d exercise_id new_minutes new_calories_burned ;;
           Ok (d1, new_calories_burned)) with
    | Ok (d1, new_calories_burned) =>
        respond 200 (ExerciseUpdated exercise_id new_minutes new_calories_burned) d1 s
    | Raise _ => respond 500 (Error "Internal server error") d s
    end.

Definition update_exercise (d : db) (s : Flask.session) (session_id exercise_id : string)
    (data : dict) : outcome :=
  match get_current_user_email s with
  | None => respond 401 (Error "Not logged in") d s
  | Some user_email =>
  match owned_exercise d exercise_id session_id user_email with
  | None => respond 404 (Error "Exercise not found in session or unauthorized") d s
  | Some exercise_row =>
  match weight_unchecked d user_email with
  | Raise e => unhandled e d s
  | Ok weight_kg =>
      let action := dict_get "action" data in
      let current_minutes := Exercise.minutes exercise_row in
      let exercise_type := Exercise.type exercise_row in
      match assoc exercise_type EXERCISE_METS with
      | None => unhandled KeyError d s
      | Some met =>
          if is_action action "increment"
          then persist_minutes d s exercise_id met weight_kg
                 (fadd current_minutes minute_change)
          else if is_action action "decrement"
          then persist_minutes d s exercise_id met weight_kg
                 (fsub current_minutes minute_change)
          else respond 400 (Error "Invalid action specified") d s
      end
  end end end.

(** The equivalent burn time of one exercise type in [get_dashboard_data]. *)
Definition equivalent_minutes (remaining_calories_to_burn : Z) (met : float)
    (metrics : dict) : result Z :=
  if 0 <? remaining_calories_to_burn
  then
    weight_kg <- dict_item "weight_kg" metrics ;;
    w <- operand weight_kg ;;
    n <- of_int (remaining_calories_to_burn * 60) ;;
    minutes <- truediv n (fmul met w) ;;
    PyFloat.round minutes
  else Ok 0.

Fixpoint exercise_times_of (remaining : Z) (metrics : dict) (mets : list (string * float))
  : result (list (string * Z)) :=
  match mets with
  | [] => Ok []
  | (exercise, met) :: rest =>
      t <- equivalent_minutes remaining met metrics ;;
      ts <- exercise_times_of remaining metrics rest ;;
      Ok ((exercise, t) :: ts)
  end.

(** [sum(e['calories_burned'] for e in logged_exercises)]: the live sum over
    the exercise rows of a session, accumulated from 0. *)
Definition session_burned (d : db) (sid : string) : Z :=
  fold_left (fun acc e => acc + Exercise.calories_burned e.2) (session_exercises d sid) 0.

(** The rows are returned as the sub-tables of the session; the order that
    [ORDER BY] gives them is not represented. *)
Definition get_dashboard_data (d : db) (s : Flask.session) (session_id : string) : outcome :=
  match get_current_user_email s with
  | None => respond 401 (Error "Not logged in") d s
  | Some user_email =>
  match sessions d !! session_id with
  | None => respond 404 (Error "Session not found or unauthorized") d s
  | Some session_row =>
  if negb (String.eqb (Session.user_email session_row) user_email)
  then respond 404 (Error "Session not found or unauthorized") d s
  else
  let total_calories_consumed := Session.total_calories session_row in
  match metrics_of d user_email with
  | None => respond 400 (Error "Metrics not set") d s
  | Some metrics =>
      let logged_exercises := session_exercises d session_id in
      let total_calories_burned := session_burned d session_id in
      let net_calories := total_calories_consumed - total_calories_burned in
      let remaining_calories_to_burn := Z.max 0 net_calories in
      match exercise_times_of remaining_calories_to_burn metrics EXERCISE_METS with
      | Raise e => unhandled e d s
      | Ok exercise_times =>
          respond 200
            (DashboardData
               {| session_name := Session.name session_row;
                  total_calories_consumed := total_calories_consumed;
                  total_calories_burned := total_calories_burned;
                  net_calories := net_calories;
                  drinks_list := session_drinks d session_id;
                  logged_exercises := logged_exercises;
                  exercise_times := exercise_times |})
            d s
      end
  end end end.

(** * Specification-level definitions *)

(** The alcohol-calorie formula as the specification writes it:
    [round(v * 0.0295735 * (a / 100) * 789 * 7)]. *)
Definition alcohol_product (a v : float) : float :=
  fmul (fmul (fmul (fmul v (literal "0.0295735")) (SFdiv prec emax a (of_Z 100)))
             (of_Z 789)) (of_Z 7).

Definition alcohol_calories_spec (a v : float) : result Z :=
  PyFloat.round (alcohol_product a v).

(** The exercise formula as the specification writes it:
    [round(met * weight_kg * (minutes / 60))]. *)
Definition burned_product (met weight_kg minutes : float) : float :=
  fmul (fmul met weight_kg) (SFdiv prec emax minutes (of_Z 60)).

Definition exercise_calories_burned_spec (met weight_kg minutes : float) : result Z :=
  PyFloat.round (burned_product met weight_kg minutes).

Definition owner (d : db) (sid : string) : option string :=
  Session.user_email <$> sessions d !! sid.

Definition clear_current (s : Flask.session) : Flask.session :=
  {| Flask.logged_in := Flask.logged_in s;
     Flask.user_email := Flask.user_email s;
     Flask.current_session_id := None |}.

Definition zsum (l : list Z) : Z := foldr Z.add 0 l.

(** The sum of [calories_burned] over the exercise rows of a session. *)
Definition burned_sum (d : db) (sid : string) : Z :=
  zsum (map (fun e => Exercise.calories_burned e.2) (session_exercises d sid)).

(** The equivalent burn time as the specification writes it:
    [round((max(net, 0) * 60) / (met * weight_kg))]. *)
Definition burn_time_spec (net : Z) (met weight_kg : float) : result Z :=
  n <- of_int (Z.max net 0 * 60) ;;
  q <- truediv n (fmul met weight_kg) ;;
  PyFloat.round q.


(** The sum of [calories * count] over the drink rows of a session. *)
Definition drink_sum (d : db) (sid : string) : Z :=
  zsum (map (fun kv => Drink.calories kv.2 * Drink.count kv.2) (session_drinks d sid)).

(** The cached total of session [sid] is the sum over its drinks. *)
Definition total_matches (d : db) (sid : string) : Prop :=
  exists row, sessions d !! sid = Some row /\ Session.total_calories row = drink_sum d sid.

(** Every session row caches the sum over its drinks. *)
Definition consistent (d : db) : Prop :=
  forall sid row, sessions d !! sid = Some row -> Session.total_calories row = drink_sum d sid.

(** The contribution of one drink row to the sum of session [sid]. *)
Definition drink_term (sid : string) (kv : string * Drink.row) : Z :=
  if decide (Drink.session_id kv.2 = sid)
  then Drink.calories kv.2 * Drink.count kv.2 else 0.

Definition table_sum (sid : string) (m : gmap string Drink.row) : Z :=
  zsum (map (drink_term sid) (map_to_list m)).

(** The statement that [update_drink] runs on the drink row before the
    recomputation, with the response data it prepares. *)
Inductive drink_step (d : db) (drink_id : string) (row : Drink.row) (action : json)
  : db -> body -> Prop :=
  | step_increment (d1 : db) :
      is_action action "increment" = true ->
      update_count d drink_id (Drink.count row + 1) = Ok d1 ->
      drink_step d drink_id row action d1
        (DrinkCount "Drink count incremented" drink_id (Drink.calories row)
                    (Drink.count row + 1))
  | step_remove :
      is_action action "increment" = false ->
      is_action action "decrement" = true ->
      Drink.count row - 1 <= 0 ->
      drink_step d drink_id row action (with_drinks (delete drink_id (drinks d)) d)
        (DrinkRemoved drink_id)
  | step_decrement (d1 : db) :
      is_action action "increment" = false ->
      is_action action "decrement" = true ->
      0 < Drink.count row - 1 ->
      update_count d drink_id (Drink.count row - 1) = Ok d1 ->
      drink_step d drink_id row action d1
        (DrinkCount "Drink count decremented" drink_id (Drink.calories row)
                    (Drink.count row - 1)).

(** A float above zero: positive finite or plus infinity. *)
Definition is_pos (x : float) : Prop :=
  match x with
  | S754_finite false _ _ | S754_infinity false => True
  | _ => False
  end.

(** An action value that is neither 'increment' nor 'decrement'. *)
Definition other_action (v : json) : Prop :=
  is_action v "increment" = false /\ is_action v "decrement" = false.

(** An integer that fits the signed 64-bit word of an INTEGER column. *)
Definition int64 (z : Z) : Prop := - 2 ^ 63 <= z < 2 ^ 63.

(** The drink row [row'] is [row] with the count [n]. *)
Definition drink_with_count (row : Drink.row) (n : Z) (row' : Drink.row) : Prop :=
  Drink.count row' = n /\
  Drink.session_id row' = Drink.session_id row /\
  Drink.calories row' = Drink.calories row /\
  Drink.abv row' = Drink.abv row /\
  Drink.volume_oz row' = Drink.volume_oz row.

(** The exercise row [row'] is [row] with the duration [m] and the burned
    calories [cb]. *)
Definition exercise_with_minutes (row : Exercise.row) (m : float) (cb : Z)
    (row' : Exercise.row) : Prop :=
  Exercise.minutes row' = m /\
  Exercise.calories_burned row' = cb /\
  Exercise.session_id row' = Exercise.session_id row /\
  Exercise.type row' = Exercise.type row.

(** The request was answered 500 by the [except] clause of the route and
    nothing of it was committed. *)
Definition failed (o : outcome) (d : db) (s : Flask.session) : Prop :=
  o = respond 500 (Error "Internal server error") d s.

(** What [update_drink] does to a drink [row] the caller owns.  Each of the
    three changes is answered 200, with the effect stated, or fails with 500
    and changes nothing; it is answered 200 when the new count and the new
    sum over the drinks of the session fit an INTEGER column. *)
Definition drink_update_spec (d : db) (s : Flask.session) (sid did : string)
    (row : Drink.row) : Prop :=
  (forall data,
     dict_get "action" data = JStr "increment" ->
     let o := update_drink d s sid did data in
     (failed o d s \/
      (status (resp o) = 200 /\
       payload (resp o)
       = DrinkCount "Drink count incremented" did (Drink.calories row)
           (Drink.count row + 1) /\
       (exists row', drinks (store o) !! did = Some row' /\
                     drink_with_count row (Drink.count row + 1) row') /\
       (forall k, k <> did -> drinks (store o) !! k = drinks d !! k) /\
       total_matches (store o) sid)) /\
     (int64 (Drink.count row + 1) ->
      int64 (drink_sum d sid + Drink.calories row) ->
      status (resp o) = 200)) /\
  (forall data,
     dict_get "action" data = JStr "decrement" ->
     Drink.count row - 1 <= 0 ->
     let o := update_drink d s sid did data in
     (failed o d s \/
      (status (resp o) = 200 /\
       payload (resp o) = DrinkRemoved did /\
       drinks (store o) !! did = None /\
       (forall k, k <> did -> drinks (store o) !! k = drinks d !! k) /\
       total_matches (store o) sid)) /\
     (int64 (drink_sum d sid - Drink.calories row * Drink.count row) ->
      status (resp o) = 200)) /\
  (forall data,
     dict_get "action" data = JStr "decrement" ->
     0 < Drink.count row - 1 ->
     let o := update_drink d s sid did data in
     (failed o d s \/
      (status (resp o) = 200 /\
       payload (resp o)
       = DrinkCount "Drink count decremented" did (Drink.calories row)
           (Drink.count row - 1) /\
       (exists row', drinks (store o) !! did = Some row' /\
                     drink_with_count row (Drink.count row - 1) row') /\
       (forall k, k <> did -> drinks (store o) !! k = drinks d !! k) /\
       total_matches (store o) sid)) /\
     (int64 (Drink.count row - 1) ->
      int64 (drink_sum d sid - Drink.calories row) ->
      status (resp o) = 200)) /\
  (forall data,
     other_action (dict_get "action" data) ->
     update_drink d s sid did data = respond 400 (Error "Invalid action specified") d s).

(** What [update_exercise] does to an exercise [row] the caller owns, at the
    MET value [met] of its type and the caller's stored weight [w].  A
    change to a duration above 0 is answered 200, with the effect stated, or
    fails with 500 and changes nothing; it is answered 200 when the
    calculator returns calories that fit an INTEGER column. *)
Definition exercise_update_spec (d : db) (s : Flask.session) (sid eid : string)
    (row : Exercise.row) (met : float) (w : json) : Prop :=
  (forall data,
     dict_get "action" data = JStr "increment" ->
     let o := update_exercise d s sid eid data in
     let m := fadd (Exercise.minutes row) minute_change in
     (failed o d s \/
      (status (resp o) = 200 /\
       exists cb,
         calculate_burned_calories met w m = Ok cb /\
         payload (resp o) = ExerciseUpdated eid m cb /\
         (exists row', exercises (store o) !! eid = Some row' /\
                       exercise_with_minutes row m cb row') /\
         (forall k, k <> eid -> exercises (store o) !! k = exercises d !! k))) /\
     (forall cb, calculate_burned_calories met w m = Ok cb -> int64 cb ->
                 status (resp o) = 200)) /\
  (forall data,
     dict_get "action" data = JStr "decrement" ->
     fleb (fsub (Exercise.minutes row) minute_change) (of_Z 0) = true ->
     update_exercise d s sid eid data
     = respond 200 (ExerciseRemoved eid)
         (with_exercises (delete eid (exercises d)) d) s /\
     exercises (store (update_exercise d s sid eid data)) !! eid = None) /\
  (forall data,
     dict_get "action" data = JStr "decrement" ->
     fleb (fsub (Exercise.minutes row) minute_change) (of_Z 0) = false ->
     let o := update_exercise d s sid eid data in
     let m := fsub (Exercise.minutes row) minute_change in
     (failed o d s \/
      (status (resp o) = 200 /\
       exists cb,
         calculate_burned_calories met w m = Ok cb /\
         payload (resp o) = ExerciseUpdated eid m cb /\
         (exists row', exercises (store o) !! eid = Some row' /\
                       exercise_with_minutes row m cb row') /\
         (forall k, k <> eid -> exercises (store o) !! k = exercises d !! k))) /\
     (forall cb, calculate_burned_calories met w m = Ok cb -> int64 cb ->
                 status (resp o) = 200)) /\
  (forall data,
     other_action (dict_get "action" data) ->
     update_exercise d s sid eid data
     = respond 400 (Error "Invalid action specified") d s).

(** [n] is the integer nearest to the finite float [x], the even one of the
    two nearest when [x] is halfway between them.  The float
    [S754_finite s m e] is [m * 2 ^ e], or its opposite when [s] is set. *)
Definition nearest_integer (x : float) (n : Z) : Prop :=
  match x with
  | S754_zero _ => n = 0
  | S754_finite s m e =>
      let v := if s then - Zpos m else Zpos m in
      if 0 <=? e then n = v * 2 ^ e
      else 2 * Z.abs (n * 2 ^ (- e) - v) <= 2 ^ (- e) /\
           (2 * Z.abs (n * 2 ^ (- e) - v) = 2 ^ (- e) -> Z.even n = true)
  | S754_infinity _ | S754_nan => False
  end.

(** * A small store used to instantiate the theorems *)

Definition alice : string := "alice@example.com".

Definition metrics70 : dict :=
  [ ("age"%string, JInt 30); ("height_cm"%string, JInt 170);
    ("weight_kg"%string, JInt 70); ("sex"%string, JStr "f") ].

Definition metrics140 : dict :=
  [ ("age"%string, JInt 30); ("height_cm"%string, JInt 170);
    ("weight_kg"%string, JInt 140); ("sex"%string, JStr "f") ].

Definition beer1 : Drink.row :=
  {| Drink.session_id := "s1"; Drink.calories := 118;
     Drink.abv := literal "5.0"; Drink.volume_oz := literal "12.0"; Drink.count := 1 |}.

Definition shots2 : Drink.row :=
  {| Drink.session_id := "s1"; Drink.calories := 150;
     Drink.abv := literal "40.0"; Drink.volume_oz := literal "1.5"; Drink.count := 2 |}.

Definition run30 : Exercise.row :=
  {| Exercise.session_id := "s1"; Exercise.type := "running";
     Exercise.minutes := literal "30"; Exercise.calories_burned := 280 |}.

Definition db0 : db :=
  {| users := {[ alice := {| User.password := "hunter2"; User.metrics := Some metrics70 |} ]};
     sessions :=
       {[ "s1"%string := {| Session.user_email := alice; Session.name := "Friday";
                            Session.date := "2024-05-03T20:00:00Z";
                            Session.total_calories := 418 |} ]};
     drinks := {[ "d1"%string := beer1; "d2"%string := shots2 ]};
     exercises := {[ "e1"%string := run30 ]} |}.

Definition sess0 : Flask.session :=
  {| Flask.logged_in := true;
     Flask.user_email := Some alice;
     Flask.current_session_id := Some "s1"%string |}.

Definition walk10 : Exercise.row :=
  {| Exercise.session_id := "s1"; Exercise.type := "walking";
     Exercise.minutes := literal "10"; Exercise.calories_burned := 41 |}.

Definition db1 : db := with_exercises (<["e2"%string := walk10]> (exercises db0)) db0.

Definition db2 : db :=
  with_sessions
    (<["s2"%string := {| Session.user_email := alice; Session.name := "Dry";
                         Session.date := "2024-05-04T20:00:00Z";
                         Session.total_calories := 0 |}]> (sessions db0)) db0.

Definition diet_form (count_str : option string) : drink_form :=
  {| drink_type := Some "mixed_drink_diet"%string; custom_name := None;
     custom_abv := None; liquid_ounces := count_str |}.

(** The store after [alice] logs 92233720368547758 diet mixed drinks, of 100
    kcal each, in the empty session "s2": the total fits 64 bits, the total
    of one more does not. *)
Definition db3 : db :=
  store (add_drink db2 sess0 "s2" (diet_form (Some "92233720368547758"%string)) "d9").

Definition metrics_text : dict :=
  [ ("age"%string, JInt 30); ("height_cm"%string, JInt 170);
    ("weight_kg"%string, JStr "70"); ("sex"%string, JStr "f") ].

(** The store after [alice] saves her weight as the text "70". *)
Definition db4 : db := store (set_user_metrics db0 sess0 metrics_text).



Definition run_body : dict :=
  [ ("exercise_type"%string, JStr "running"); ("minutes"%string, JInt 30) ].

Definition beer_form : drink_form :=
  {| drink_type := Some "beer"%string; custom_name := None;
     custom_abv := Some "5.0"%string; liquid_ounces := Some "12"%string |}.

(** A beer of no volume, written with a sign. *)
Definition flat_form : drink_form :=
  {| drink_type := Some "beer"%string; custom_name := None;
     custom_abv := Some "5"%string; liquid_ounces := Some "-0.0"%string |}.


Definition action (a : string) : dict := [("action"%string, JStr a)].

(** * Bound parameters *)

Lemma bind_int_ok (z t : Z) : bind_int z = Ok t -> t = z.
Proof.
  unfold bind_int. destruct (_ && _); [| discriminate]. intros [= <-]. reflexivity.
Qed.

Lemma bind_real_ok (f f' : float) : bind_real f = Ok f' -> f' = real_stored f.
Proof. destruct f; simpl; intros [= <-] || discriminate; reflexivity. Qed.

(** A float above zero is stored as it is. *)
Lemma real_stored_pos (f : float) : fleb f (of_Z 0) = false -> real_stored f = f.
Proof. destruct f as [s | s | | s m e]; try reflexivity. destruct s; discriminate. Qed.

(** * Properties of the calculators *)

Lemma round_finite (x : float) :
  is_finite x = true -> exists n, PyFloat.round x = Ok n.
Proof.
  destruct x as [s | s | | s m e]; simpl; intros H; try discriminate; eauto.
Qed.

Lemma calculate_calories_unfold (a v : float) :
  calculate_calories a v = alcohol_calories_spec a v.
Proof. reflexivity. Qed.

(** C3 as stated fails: a finite ABV of 100 and a finite volume of 1e308
    ounces overflow the product, and [round] raises instead of returning. *)
Lemma C3_overflow_counterexample :
  is_finite (literal "100") = true /\
  fleb (of_Z 0) (literal "100") = true /\
  fleb (literal "100") (of_Z 100) = true /\
  is_finite (literal "1e308") = true /\
  fltb (of_Z 0) (literal "1e308") = true /\
  calculate_calories (literal "100") (literal "1e308") = Raise OverflowError /\
  ~ (exists n, calculate_calories (literal "100") (literal "1e308") = Ok n).
Proof.
  assert (E : calculate_calories (literal "100") (literal "1e308") = Raise OverflowError)
    by (vm_compute; reflexivity).
  repeat split; try (vm_compute; reflexivity).
  intros [n Hn]. rewrite E in Hn. discriminate.
Qed.

(** C3 (amended): for a finite ABV in [0,100] and a finite volume above 0
    whose float product [v * 0.0295735 * (a / 100) * 789 * 7] is finite, the
    alcohol-calorie calculator returns an integer, the [round] of that
    product, and raises nothing. *)
Theorem C3_alcohol_calories (a v : float) :
  is_finite a = true ->
  fleb (of_Z 0) a = true ->
  fleb a (of_Z 100) = true ->
  is_finite v = true ->
  fltb (of_Z 0) v = true ->
  is_finite (alcohol_product a v) = true ->
  exists n, calculate_calories a v = Ok n /\ alcohol_calories_spec a v = Ok n.
Proof.
  intros _ _ _ _ _ Hfin.
  destruct (round_finite _ Hfin) as [n Hn].
  exists n. rewrite calculate_calories_unfold. unfold alcohol_calories_spec. auto.
Qed.

Lemma C3_alcohol_calories_witness :
  exists n, calculate_calories (literal "5.0") (literal "12") = Ok n /\
            alcohol_calories_spec (literal "5.0") (literal "12") = Ok n.
Proof.
  apply (C3_alcohol_calories (literal "5.0") (literal "12")); vm_compute; reflexivity.
Defined.

(** [round] returns the nearest integer, the even one at a tie. *)
Lemma round_half_even_nearest (m : positive) (e : Z) :
  e < 0 ->
  2 * Z.abs (round_half_even (Zpos m) e * 2 ^ (- e) - Zpos m) <= 2 ^ (- e) /\
  (2 * Z.abs (round_half_even (Zpos m) e * 2 ^ (- e) - Zpos m) = 2 ^ (- e) ->
   Z.even (round_half_even (Zpos m) e) = true).
Proof.
  intros He. unfold round_half_even.
  destruct (Z.leb_spec 0 e) as [H0 | _]; [lia |]. cbv zeta.
  assert (Hd : 0 < 2 ^ (- e)) by (apply Z.pow_pos_nonneg; lia).
  set (d := 2 ^ (- e)) in *.
  pose proof (Z.div_mod (Zpos m) d ltac:(lia)) as Hdm.
  pose proof (Z.mod_pos_bound (Zpos m) d Hd) as Hr.
  set (q := Zpos m / d) in *. set (r := Zpos m mod d) in *.
  assert (Hq : q * d - Zpos m = - r) by lia.
  assert (Hq1 : (q + 1) * d - Zpos m = d - r) by lia.
  destruct (Z.compare_spec (2 * r) d) as [Heq | Hlt | Hgt].
  - destruct (Z.even q) eqn:Hev.
    + rewrite Hq. split; [lia | intros _; exact Hev].
    + rewrite Hq1. split; [lia |]. intros _.
      rewrite Z.even_add, Hev. reflexivity.
  - rewrite Hq. split; lia.
  - rewrite Hq1. split; lia.
Qed.

Lemma round_nearest (x : float) (n : Z) : PyFloat.round x = Ok n -> nearest_integer x n.
Proof.
  destruct x as [s | s | | s m e]; cbn [PyFloat.round nearest_integer]; try discriminate.
  - intros [= <-]. reflexivity.
  - intros [= <-]. cbv zeta.
    destruct (Z.leb_spec 0 e) as [H0 | Hneg].
    + unfold round_half_even. rewrite (proj2 (Z.leb_le 0 e) H0).
      destruct s; lia.
    + destruct (round_half_even_nearest m e Hneg) as [Hle Htie].
      destruct s.
      * replace (- round_half_even (Zpos m) e * 2 ^ (- e) - - Zpos m)
          with (- (round_half_even (Zpos m) e * 2 ^ (- e) - Zpos m)) by lia.
        rewrite Z.abs_opp, Z.even_opp. split; assumption.
      * split; assumption.
Qed.

Lemma round_not_finite (x : float) :
  is_finite x = false ->
  PyFloat.round x = Raise OverflowError \/ PyFloat.round x = Raise ValueError.
Proof. destruct x; cbn; intros H; try discriminate; auto. Qed.

(** C7 as stated fails: at the finite MET 8.0, weight 1e308 kg and 60
    minutes the product overflows, and [round] raises instead of
    returning. *)
Lemma C7_overflow_counterexample :
  is_finite (literal "8.0") = true /\
  is_finite (literal "1e308") = true /\
  is_finite (literal "60") = true /\
  calculate_burned_calories (literal "8.0") (JFloat (literal "1e308")) (literal "60")
  = Raise OverflowError /\
  ~ (exists n,
       calculate_burned_calories (literal "8.0") (JFloat (literal "1e308")) (literal "60")
       = Ok n).
Proof.
  assert (E : calculate_burned_calories (literal "8.0") (JFloat (literal "1e308"))
                (literal "60") = Raise OverflowError)
    by (vm_compute; reflexivity).
  repeat split; try (vm_compute; reflexivity).
  intros [n Hn]. rewrite E in Hn. discriminate.
Qed.

(** C7 (amended): for finite [met], [weight_kg] and [minutes] whose float
    product [met * weight_kg * (minutes / 60)] is finite, the
    exercise-calorie calculator returns an integer, the [round] of that
    product: the integer nearest to it, the even one when it is halfway
    between two.  When the product is not finite the calculator raises
    [OverflowError] or [ValueError] and returns nothing.  An integer weight
    counts as the float Python converts it to.  The calculator is a
    function of its arguments; MET 8.0 for 30 minutes at 70 kg gives 280. *)
Theorem C7_exercise_calories :
  (forall met w minutes : float,
     is_finite met = true -> is_finite w = true -> is_finite minutes = true ->
     is_finite (burned_product met w minutes) = true ->
     exists n,
       calculate_burned_calories met (JFloat w) minutes = Ok n /\
       exercise_calories_burned_spec met w minutes = Ok n /\
       nearest_integer (burned_product met w minutes) n) /\
  (forall met w minutes : float,
     is_finite (burned_product met w minutes) = false ->
     calculate_burned_calories met (JFloat w) minutes = Raise OverflowError \/
     calculate_burned_calories met (JFloat w) minutes = Raise ValueError) /\
  (forall (met minutes w : float) (z : Z),
     of_int z = Ok w ->
     calculate_burned_calories met (JInt z) minutes
     = calculate_burned_calories met (JFloat w) minutes) /\
  calculate_burned_calories (literal "8.0") (JInt 70) (literal "30") = Ok 280 /\
  calculate_burned_calories (literal "8.0") (JFloat (literal "70.0")) (literal "30.0") = Ok 280.
Proof.
  assert (Hcalc : forall met w minutes,
            calculate_burned_calories met (JFloat w) minutes
            = PyFloat.round (burned_product met w minutes))
    by reflexivity.
  split; [| split; [| split; [| split]]].
  - intros met w minutes _ _ _ Hfin.
    destruct (round_finite _ Hfin) as [n Hn].
    exists n. rewrite Hcalc. unfold exercise_calories_burned_spec.
    split; [exact Hn |]. split; [exact Hn |]. apply round_nearest. exact Hn.
  - intros met w minutes Hinf. rewrite Hcalc. apply round_not_finite. exact Hinf.
  - intros met minutes w z Hz. unfold calculate_burned_calories.
    cbn [operand]. rewrite Hz. reflexivity.
  - vm_compute. reflexivity.
  - vm_compute. reflexivity.
Qed.

Lemma C7_exercise_calories_witness :
  exists n,
    calculate_burned_calories (literal "8.0") (JFloat (literal "70")) (literal "30") = Ok n /\
    exercise_calories_burned_spec (literal "8.0") (literal "70") (literal "30") = Ok n /\
    nearest_integer (burned_product (literal "8.0") (literal "70") (literal "30")) n.
Proof.
  apply (proj1 C7_exercise_calories); vm_compute; reflexivity.
Defined.

(** * Registration and login *)

(** C9: registering an email that is already in [users] answers 409 and
    changes neither the store nor the session; a login whose password differs
    from the stored one answers 401, with the very response a login with an
    unknown email gets. *)
Theorem C9_register_login_errors (d : db) (s : Flask.session) (email password : string) :
  (forall u, users d !! email = Some u ->
     register d s email password = respond 409 (Error "User already exists") d s) /\
  (forall u, users d !! email = Some u -> User.password u <> password ->
     login d s email password = respond 401 (Error "Invalid email or password") d s) /\
  (users d !! email = None ->
     login d s email password = respond 401 (Error "Invalid email or password") d s).
Proof.
  split; [| split].
  - intros u Hu. unfold register. rewrite Hu. reflexivity.
  - intros u Hu Hpw. unfold login. rewrite Hu.
    destruct (String.eqb_spec (User.password u) password) as [E | E].
    + contradiction.
    + reflexivity.
  - intros Hu. unfold login. rewrite Hu. reflexivity.
Qed.

Lemma C9_register_login_errors_witness :
  register db0 sess0 alice "other" = respond 409 (Error "User already exists") db0 sess0 /\
  login db0 sess0 alice "wrong" = respond 401 (Error "Invalid email or password") db0 sess0 /\
  login db0 sess0 "bob@example.com" "wrong"
  = respond 401 (Error "Invalid email or password") db0 sess0.
Proof.
  split; [| split].
  - apply (proj1 (C9_register_login_errors db0 sess0 alice "other")
             {| User.password := "hunter2"; User.metrics := Some metrics70 |}).
    vm_compute. reflexivity.
  - apply (proj1 (proj2 (C9_register_login_errors db0 sess0 alice "wrong"))
             {| User.password := "hunter2"; User.metrics := Some metrics70 |}).
    + vm_compute. reflexivity.
    + simpl. discriminate.
  - apply (proj2 (proj2 (C9_register_login_errors db0 sess0 "bob@example.com" "wrong"))).
    vm_compute. reflexivity.
Defined.

(** * The dashboard *)

Lemma dashboard_ok_inv (d : db) (s : Flask.session) (sid : string) (p : dashboard) :
  payload (resp (get_dashboard_data d s sid)) = DashboardData p ->
  exists user row metrics times,
    get_current_user_email s = Some user /\
    sessions d !! sid = Some row /\
    Session.user_email row = user /\
    metrics_of d user = Some metrics /\
    exercise_times_of (Z.max 0 (Session.total_calories row - session_burned d sid))
      metrics EXERCISE_METS = Ok times /\
    status (resp (get_dashboard_data d s sid)) = 200 /\
    p = {| session_name := Session.name row;
           total_calories_consumed := Session.total_calories row;
           total_calories_burned := session_burned d sid;
           net_calories := Session.total_calories row - session_burned d sid;
           drinks_list := session_drinks d sid;
           logged_exercises := session_exercises d sid;
           exercise_times := times |}.
Proof.
  unfold get_dashboard_data.
  destruct (get_current_user_email s) as [user |] eqn:Hu; [| discriminate].
  destruct (sessions d !! sid) as [row |] eqn:Hrow; [| discriminate].
  destruct (String.eqb_spec (Session.user_email row) user) as [Hown | Hown];
    cbn [negb]; [| discriminate].
  destruct (metrics_of d user) as [metrics |] eqn:Hm; [| discriminate].
  cbv zeta.
  destruct (exercise_times_of _ metrics EXERCISE_METS) as [times | e] eqn:Ht;
    [| discriminate].
  intros [= <-]. exists user, row, metrics, times. repeat split; auto.
Qed.

(** * Logging an exercise *)

(** What a request of [add_exercise] that answers 200 went through: the
    stored calories are computed at the weight stored when it runs. *)
Lemma add_exercise_ok_inv (d : db) (s : Flask.session) (sid : string) (data : dict)
    (eid : string) :
  status (resp (add_exercise d s sid data eid)) = 200 ->
  exists user metrics w ty met minutes cb,
    get_current_user_email s = Some user /\
    metrics_of d user = Some metrics /\
    dict_item "weight_kg" metrics = Ok w /\
    dict_get "exercise_type" data = JStr ty /\
    assoc ty EXERCISE_METS = Some met /\
    float_of (dict_get "minutes" data) = Ok minutes /\
    fleb minutes (of_Z 0) = false /\
    calculate_burned_calories met w minutes = Ok cb /\
    exercises (store (add_exercise d s sid data eid)) !! eid
    = Some {| Exercise.session_id := sid; Exercise.type := ty;
              Exercise.minutes := minutes; Exercise.calories_burned := cb |} /\
    payload (resp (add_exercise d s sid data eid)) = ExerciseAdded eid ty minutes cb.
Proof.
  unfold add_exercise.
  destruct (get_current_user_email s) as [user |] eqn:Hu; [| discriminate].
  destruct (sessions d !! sid) as [srow |]; [| discriminate].
  destruct (negb _); [discriminate |].
  destruct (metrics_of d user) as [metrics |] eqn:Hm; [| discriminate].
  destruct (dict_item "weight_kg" metrics) as [w | e] eqn:Hw; [| discriminate].
  cbv zeta.
  destruct (dict_get "exercise_type" data) as [| b | z | f | ty | l | l] eqn:Hty;
    try discriminate.
  destruct (assoc ty EXERCISE_METS) as [met |] eqn:Hmet; [| discriminate].
  destruct (negb (truthy _)); [discriminate |].
  destruct (float_of (dict_get "minutes" data)) as [minutes | e] eqn:Hmin;
    [| destruct e; discriminate].
  destruct (fleb minutes (of_Z 0)) eqn:Hpos; [discriminate |].
  destruct (calculate_burned_calories met w minutes) as [cb | e] eqn:Hcb;
    cbn [rbind]; [| destruct e; discriminate].
  unfold insert_exercise.
  cbn [Exercise.minutes Exercise.calories_burned Exercise.session_id Exercise.type].
  destruct (bind_real minutes) as [m' | e] eqn:Hreal; cbn [rbind];
    [| destruct e; discriminate].
  destruct (bind_int cb) as [c' | e] eqn:Hint; cbn [rbind]; [| destruct e; discriminate].
  apply bind_real_ok in Hreal. rewrite (real_stored_pos _ Hpos) in Hreal.
  apply bind_int_ok in Hint. subst m' c'.
  destruct (exercises d !! eid); cbn [rbind]; [discriminate |].
  intros _. exists user, metrics, w, ty, met, minutes, cb.
  repeat split; auto. cbn. apply lookup_insert_eq.
Qed.

(** * Metrics *)

(** C10: [set_user_metrics] writes nothing but the [metrics] field of the
    caller's [users] row: the exercise, drink and session tables, the Flask
    session, every other user and every password stay as they were; so each
    stored [calories_burned], and with it the burned total and the exercise
    list the dashboard returns, is what it was before the weight changed.
    What a row holds is the calculator's value at the weight stored when
    [add_exercise] inserted it. *)
Theorem C10_set_user_metrics_frame (d : db) (s : Flask.session) (data : dict) :
  exercises (store (set_user_metrics d s data)) = exercises d /\
  drinks (store (set_user_metrics d s data)) = drinks d /\
  sessions (store (set_user_metrics d s data)) = sessions d /\
  sess (set_user_metrics d s data) = s /\
  (forall e, get_current_user_email s <> Some e ->
     users (store (set_user_metrics d s data)) !! e = users d !! e) /\
  (forall e, User.password <$> users (store (set_user_metrics d s data)) !! e
             = User.password <$> users d !! e) /\
  (forall sid p p',
     payload (resp (get_dashboard_data d s sid)) = DashboardData p ->
     payload (resp (get_dashboard_data (store (set_user_metrics d s data))
                                       (sess (set_user_metrics d s data)) sid))
     = DashboardData p' ->
     total_calories_burned p' = total_calories_burned p /\
     logged_exercises p' = logged_exercises p) /\
  (forall sid body eid,
     status (resp (add_exercise d s sid body eid)) = 200 ->
     exists user metrics w row met,
       get_current_user_email s = Some user /\
       metrics_of d user = Some metrics /\
       dict_item "weight_kg" metrics = Ok w /\
       exercises (store (add_exercise d s sid body eid)) !! eid = Some row /\
       assoc (Exercise.type row) EXERCISE_METS = Some met /\
       calculate_burned_calories met w (Exercise.minutes row)
       = Ok (Exercise.calories_burned row)).
Proof.
  assert (Hex : exercises (store (set_user_metrics d s data)) = exercises d).
  { unfold set_user_metrics. destruct (get_current_user_email s); [| reflexivity].
    destruct (forallb _ _); reflexivity. }
  split; [exact Hex |].
  split; [| split; [| split; [| split; [| split; [| split]]]]].
  - unfold set_user_metrics. destruct (get_current_user_email s); [| reflexivity].
    destruct (forallb _ _); reflexivity.
  - unfold set_user_metrics. destruct (get_current_user_email s); [| reflexivity].
    destruct (forallb _ _); reflexivity.
  - unfold set_user_metrics. destruct (get_current_user_email s); [| reflexivity].
    destruct (forallb _ _); reflexivity.
  - intros e Hne. unfold set_user_metrics.
    destruct (get_current_user_email s) as [u |]; [| reflexivity].
    destruct (forallb _ _); [| reflexivity]. simpl.
    apply lookup_alter_ne. congruence.
  - intros e. unfold set_user_metrics.
    destruct (get_current_user_email s) as [u |]; [| reflexivity].
    destruct (forallb _ _); [| reflexivity]. simpl.
    destruct (decide (u = e)) as [-> | Hne].
    + rewrite lookup_alter_eq. destruct (users d !! e); reflexivity.
    + rewrite lookup_alter_ne by exact Hne. reflexivity.
  - intros sid p p' Hp Hp'.
    apply dashboard_ok_inv in Hp as (u & r & m & t & _ & _ & _ & _ & _ & _ & ->).
    apply dashboard_ok_inv in Hp' as (u' & r' & m' & t' & _ & _ & _ & _ & _ & _ & ->).
    simpl. unfold session_burned, session_exercises. rewrite Hex. split; reflexivity.
  - intros sid body eid H.
    destruct (add_exercise_ok_inv _ _ _ _ _ H)
      as (user & metrics & w & ty & met & minutes & cb
          & Hu & Hm & Hw & _ & Hmet & _ & _ & Hcb & Hrow & _).
    exists user, metrics, w. eexists. exists met.
    split; [exact Hu |]. split; [exact Hm |]. split; [exact Hw |].
    split; [exact Hrow |]. split; [exact Hmet | exact Hcb].
Qed.

(** At 70 kg the stored run of 30 minutes burned 280 kcal; after the weight is
    set to 140 kg the row and the dashboard total still say 280, while the
    calculator at the new weight gives 560.  A run logged at 70 kg is stored
    with the 280 kcal of that weight. *)
Lemma C10_set_user_metrics_frame_witness :
  exercises (store (set_user_metrics db0 sess0 metrics140)) !! "e1"%string = Some run30 /\
  users (store (set_user_metrics db0 sess0 metrics140)) !! "bob@example.com"%string
  = users db0 !! "bob@example.com"%string /\
  calculate_burned_calories (literal "8.0") (JInt 140) (literal "30") = Ok 560 /\
  (exists p p',
     payload (resp (get_dashboard_data db0 sess0 "s1")) = DashboardData p /\
     payload (resp (get_dashboard_data (store (set_user_metrics db0 sess0 metrics140))
                                       (sess (set_user_metrics db0 sess0 metrics140)) "s1"))
     = DashboardData p' /\
     total_calories_burned p = 280 /\
     total_calories_burned p' = total_calories_burned p /\
     logged_exercises p' = logged_exercises p) /\
  (exists row,
     exercises (store (add_exercise db0 sess0 "s1" run_body "e9")) !! "e9"%string
     = Some row /\
     calculate_burned_calories (literal "8.0") (JInt 70) (Exercise.minutes row)
     = Ok (Exercise.calories_burned row) /\
     Exercise.calories_burned row = 280).
Proof.
  destruct (C10_set_user_metrics_frame db0 sess0 metrics140)
    as (Hex & _ & _ & _ & Hother & _ & Hdash & Hadd).
  split; [rewrite Hex; vm_compute; reflexivity |].
  split; [apply Hother; vm_compute; discriminate |].
  split; [vm_compute; reflexivity |].
  split.
  { eexists. eexists.
    split; [vm_compute; reflexivity |].
    split; [vm_compute; reflexivity |].
    split; [reflexivity |].
    apply (Hdash "s1"%string); vm_compute; reflexivity. }
  destruct (Hadd "s1"%string run_body "e9"%string)
    as (user & metrics & w & row & met & Hu & Hm & Hw & Hrow & Hmet & Hcb);
    [vm_compute; reflexivity |].
  assert (E : exercises (store (add_exercise db0 sess0 "s1" run_body "e9")) !! "e9"%string
              = Some {| Exercise.session_id := "s1"; Exercise.type := "running";
                        Exercise.minutes := literal "30";
                        Exercise.calories_burned := 280 |})
    by (vm_compute; reflexivity).
  exists row. split; [exact Hrow |].
  rewrite E in Hrow. injection Hrow as <-.
  split; [vm_compute; reflexivity | reflexivity].
Defined.

(** * Deleting a session *)

(** C8: for a logged-in caller, [delete_session] on an id that is missing or
    owned by somebody else answers 404 and changes nothing; on an owned id it
    answers 200, removes the session row, exactly the drink rows and the
    exercise rows of that session, leaves [users] alone, clears the current
    session pointer when it pointed at the deleted id (and only then), and a
    dashboard fetch for the id that follows answers 404. *)
Theorem C8_delete_session (d : db) (s : Flask.session) (sid user : string) :
  get_current_user_email s = Some user ->
  (owner d sid <> Some user ->
     delete_session d s sid
     = respond 404 (Error "Session not found or unauthorized") d s) /\
  (owner d sid = Some user ->
     status (resp (delete_session d s sid)) = 200 /\
     sessions (store (delete_session d s sid)) = delete sid (sessions d) /\
     (forall k r, drinks (store (delete_session d s sid)) !! k = Some r <->
                  drinks d !! k = Some r /\ Drink.session_id r <> sid) /\
     (forall k r, exercises (store (delete_session d s sid)) !! k = Some r <->
                  exercises d !! k = Some r /\ Exercise.session_id r <> sid) /\
     users (store (delete_session d s sid)) = users d /\
     sess (delete_session d s sid)
     = (if decide (Flask.current_session_id s = Some sid) then clear_current s else s) /\
     resp (get_dashboard_data (store (delete_session d s sid))
                              (sess (delete_session d s sid)) sid)
     = {| status := 404; payload := Error "Session not found or unauthorized" |}).
Proof.
  intros Hu. unfold owner, delete_session. rewrite Hu.
  destruct (sessions d !! sid) as [row |] eqn:Hrow; simpl.
  - destruct (String.eqb_spec (Session.user_email row) user) as [Hown | Hown].
    + split; [intros H; exfalso; apply H; congruence |].
      intros _. simpl.
      split; [reflexivity |].
      split; [reflexivity |].
      split; [intros k r; rewrite map_lookup_filter_Some; reflexivity |].
      split; [intros k r; rewrite map_lookup_filter_Some; reflexivity |].
      split; [reflexivity |].
      split; [reflexivity |].
      unfold get_dashboard_data.
      assert (Hu' : get_current_user_email
                (if decide (Flask.current_session_id s = Some sid)
                 then {| Flask.logged_in := Flask.logged_in s;
                         Flask.user_email := Flask.user_email s;
                         Flask.current_session_id := None |}
                 else s) = Some user).
      { destruct (decide _); [| exact Hu]. exact Hu. }
      rewrite Hu'. simpl. rewrite lookup_delete_eq. reflexivity.
    + split; [reflexivity |].
      intros [= E]. contradiction.
  - split; [reflexivity |]. discriminate.
Qed.

Lemma C8_delete_session_witness :
  delete_session db0 sess0 "nope" = respond 404 (Error "Session not found or unauthorized") db0 sess0 /\
  status (resp (delete_session db0 sess0 "s1")) = 200 /\
  drinks (store (delete_session db0 sess0 "s1")) !! "d1"%string = None /\
  exercises (store (delete_session db0 sess0 "s1")) !! "e1"%string = None /\
  Flask.current_session_id (sess (delete_session db0 sess0 "s1")) = None /\
  status (resp (get_dashboard_data (store (delete_session db0 sess0 "s1"))
                                   (sess (delete_session db0 sess0 "s1")) "s1")) = 404.
Proof.
  assert (Hu : get_current_user_email sess0 = Some alice) by (vm_compute; reflexivity).
  destruct (C8_delete_session db0 sess0 "nope" alice Hu) as [Hmiss _].
  destruct (C8_delete_session db0 sess0 "s1" alice Hu) as [_ Hown].
  split; [apply Hmiss; vm_compute; discriminate |].
  destruct Hown as (H200 & _ & _ & _ & _ & _ & Hdash); [vm_compute; reflexivity |].
  split; [exact H200 |].
  split; [vm_compute; reflexivity |].
  split; [vm_compute; reflexivity |].
  split; [vm_compute; reflexivity |].
  rewrite Hdash. reflexivity.
Defined.

(** * Net calories and equivalent burn times *)

Lemma fold_left_add_zsum {A : Type} (f : A -> Z) (l : list A) (a : Z) :
  fold_left (fun acc x => acc + f x) l a = a + zsum (map f l).
Proof.
  revert a. induction l as [| x l IH]; intros a; simpl.
  - lia.
  - rewrite IH. lia.
Qed.

Lemma session_burned_sum (d : db) (sid : string) :
  session_burned d sid = burned_sum d sid.
Proof.
  unfold session_burned, burned_sum.
  rewrite (fold_left_add_zsum (fun e : string * Exercise.row => Exercise.calories_burned e.2)).
  lia.
Qed.

Lemma exercise_times_of_assoc (r : Z) (m : dict) (l : list (string * float))
    (ts : list (string * Z)) (ex : string) (met : float) :
  exercise_times_of r m l = Ok ts ->
  assoc ex l = Some met ->
  exists t, assoc ex ts = Some t /\ equivalent_minutes r met m = Ok t.
Proof.
  revert ts. induction l as [| [k v] l IH]; intros ts Hts Hex; simpl in *.
  - discriminate.
  - destruct (equivalent_minutes r v m) as [t |] eqn:Ht; simpl in Hts; [| discriminate].
    destruct (exercise_times_of r m l) as [ts' |] eqn:Hts'; simpl in Hts; [| discriminate].
    injection Hts as <-. simpl.
    destruct (String.eqb ex k).
    + injection Hex as <-. exists t. auto.
    + apply (IH ts' eq_refl Hex).
Qed.

(** C6: on a successful dashboard fetch, the consumed total is the cached
    [total_calories] of the session row, the burned total is the sum of
    [calories_burned] over the exercise rows of the session (0 when there are
    none), [net_calories] is their difference, and every known exercise type
    gets a burn time: 0 when the net is not positive, and otherwise
    [round((max(net,0) * 60) / (met * weight_kg))] at the caller's weight. *)
Theorem C6_dashboard_net (d : db) (s : Flask.session) (sid : string) (p : dashboard) :
  resp (get_dashboard_data d s sid) = {| status := 200; payload := DashboardData p |} ->
  exists row,
    sessions d !! sid = Some row /\
    total_calories_consumed p = Session.total_calories row /\
    total_calories_burned p = burned_sum d sid /\
    net_calories p = Session.total_calories row - burned_sum d sid /\
    (session_exercises d sid = [] ->
       total_calories_burned p = 0 /\ net_calories p = Session.total_calories row) /\
    (forall ex met,
       assoc ex EXERCISE_METS = Some met ->
       exists t,
         assoc ex (exercise_times p) = Some t /\
         (net_calories p <= 0 -> t = 0) /\
         (0 < net_calories p ->
            exists user metrics weight_kg w,
              get_current_user_email s = Some user /\
              metrics_of d user = Some metrics /\
              dict_item "weight_kg" metrics = Ok weight_kg /\
              operand weight_kg = Ok w /\
              burn_time_spec (net_calories p) met w = Ok t)).
Proof.
  intros H.
  assert (Hp : payload (resp (get_dashboard_data d s sid)) = DashboardData p)
    by (rewrite H; reflexivity).
  apply dashboard_ok_inv in Hp
    as (user & row & metrics & times & Hu & Hrow & _ & Hm & Ht & _ & ->).
  exists row. cbn [total_calories_consumed total_calories_burned net_calories exercise_times].
  rewrite session_burned_sum in *.
  split; [exact Hrow |].
  split; [reflexivity |].
  split; [reflexivity |].
  split; [reflexivity |].
  split.
  { intros Hnil. unfold burned_sum. rewrite Hnil. simpl. split; lia. }
  intros ex met Hex.
  destruct (exercise_times_of_assoc _ _ _ _ _ _ Ht Hex) as (t & Hat & Het).
  exists t. split; [exact Hat |].
  unfold equivalent_minutes in Het.
  split.
  - intros Hle.
    destruct (Z.ltb_spec 0 (Z.max 0 (Session.total_calories row - burned_sum d sid)))
      as [Hlt | Hge]; [lia |].
    congruence.
  - intros Hpos.
    destruct (Z.ltb_spec 0 (Z.max 0 (Session.total_calories row - burned_sum d sid)))
      as [Hlt | Hge]; [| lia].
    destruct (dict_item "weight_kg" metrics) as [weight_kg |] eqn:Hw;
      simpl in Het; [| discriminate].
    destruct (operand weight_kg) as [w |] eqn:Hop; simpl in Het; [| discriminate].
    exists user, metrics, weight_kg, w.
    repeat (split; [assumption |]).
    unfold burn_time_spec.
    replace (Z.max (Session.total_calories row - burned_sum d sid) 0)
      with (Z.max 0 (Session.total_calories row - burned_sum d sid)) by lia.
    exact Het.
Qed.

Lemma C6_dashboard_net_witness :
  (exists p row,
     resp (get_dashboard_data db0 sess0 "s1")
     = {| status := 200; payload := DashboardData p |} /\
     sessions db0 !! "s1"%string = Some row /\
     net_calories p = Session.total_calories row - burned_sum db0 "s1" /\
     net_calories p = 138 /\
     assoc "running"%string (exercise_times p) = Some 15 /\
     burn_time_spec (net_calories p) (literal "8.0") (literal "70") = Ok 15) /\
  (exists p,
     resp (get_dashboard_data db2 sess0 "s2")
     = {| status := 200; payload := DashboardData p |} /\
     total_calories_burned p = 0 /\
     net_calories p = 0 /\
     assoc "running"%string (exercise_times p) = Some 0).
Proof.
  split.
  - eexists.
    assert (H : resp (get_dashboard_data db0 sess0 "s1")
                = {| status := 200;
                     payload := DashboardData
                       {| session_name := "Friday";
                          total_calories_consumed := 418;
                          total_calories_burned := 280;
                          net_calories := 138;
                          drinks_list := session_drinks db0 "s1";
                          logged_exercises := session_exercises db0 "s1";
                          exercise_times :=
                            [("walking"%string, 34); ("running"%string, 15);
                             ("biking"%string, 20); ("swimming"%string, 17);
                             ("strength_training"%string, 26)] |} |})
      by (vm_compute; reflexivity).
    destruct (C6_dashboard_net db0 sess0 "s1" _ H)
      as (row & Hrow & _ & _ & Hnet & _ & Htimes).
    exists row.
    split; [exact H |].
    split; [exact Hrow |].
    split; [exact Hnet |].
    split; [reflexivity |].
    split; [reflexivity |].
    destruct (Htimes "running"%string (literal "8.0") eq_refl) as (t & Ht & _ & Hpos).
    injection Ht as <-.
    destruct Hpos as (user & metrics & weight_kg & w & _ & _ & _ & _ & _);
      [cbn; lia |].
    vm_compute. reflexivity.
  - eexists.
    assert (H : resp (get_dashboard_data db2 sess0 "s2")
                = {| status := 200;
                     payload := DashboardData
                       {| session_name := "Dry";
                          total_calories_consumed := 0;
                          total_calories_burned := 0;
                          net_calories := 0;
                          drinks_list := [];
                          logged_exercises := [];
                          exercise_times :=
                            [("walking"%string, 0); ("running"%string, 0);
                             ("biking"%string, 0); ("swimming"%string, 0);
                             ("strength_training"%string, 0)] |} |})
      by (vm_compute; reflexivity).
    destruct (C6_dashboard_net db2 sess0 "s2" _ H)
      as (row & _ & _ & _ & _ & Hnil & Htimes).
    split; [exact H |].
    destruct Hnil as [Hb Hn]; [vm_compute; reflexivity |].
    split; [exact Hb |].
    split; [reflexivity |].
    destruct (Htimes "running"%string (literal "8.0") eq_refl) as (t & Ht & Hle & _).
    rewrite Ht. f_equal. apply Hle. cbn. lia.
Defined.

(** * Adding a drink *)

Lemma update_session_calories_ok (d d' : db) (sid : string) (t : Z) :
  update_session_calories d sid = Ok (d', t) ->
  t = fold_left (fun acc drink => acc + Drink.calories drink.2 * Drink.count drink.2)
                (session_drinks d sid) 0 /\
  d' = with_sessions (alter (set_total t) sid (sessions d)) d.
Proof.
  unfold update_session_calories.
  destruct (bind_int _) as [t' |] eqn:Hb; simpl; [| discriminate].
  apply bind_int_ok in Hb. subst t'. intros [= <- <-]. split; reflexivity.
Qed.

Lemma insert_drink_ok (d d' : db) (id : string) (r : Drink.row) :
  insert_drink d id r = Ok d' ->
  drinks d !! id = None /\ d' = with_drinks (<[id := stored_drink r]> (drinks d)) d.
Proof.
  unfold insert_drink.
  destruct (bind_int (Drink.calories r)) as [c |] eqn:Hc; cbn [rbind]; [| discriminate].
  destruct (bind_real (Drink.abv r)) as [a |] eqn:Ha; cbn [rbind]; [| discriminate].
  destruct (bind_real (Drink.volume_oz r)) as [v |] eqn:Hv; cbn [rbind]; [| discriminate].
  destruct (bind_int (Drink.count r)) as [n |] eqn:Hn; cbn [rbind]; [| discriminate].
  apply bind_int_ok in Hc, Hn. apply bind_real_ok in Ha, Hv. subst c a v n.
  destruct (drinks d !! id); [discriminate |].
  intros [= <-]. split; reflexivity.
Qed.

(** What a request of [add_drink] that answers 200 went through. *)
Lemma add_drink_ok_inv (d : db) (s : Flask.session) (sid : string) (form : drink_form)
    (id : string) :
  status (resp (add_drink d s sid form id)) = 200 ->
  exists user srow dt preset abv vol count c d1 t,
    get_current_user_email s = Some user /\
    sessions d !! sid = Some srow /\
    Session.user_email srow = user /\
    drink_type form = Some dt /\
    assoc dt DRINK_PRESETS = Some preset /\
    dynamic_properties dt preset form = Resolved abv vol count /\
    calculate_calories abv vol = Ok c /\
    insert_drink d id
      {| Drink.session_id := sid; Drink.calories := calories_per_serving dt c;
         Drink.abv := abv; Drink.volume_oz := vol; Drink.count := count |} = Ok d1 /\
    update_session_calories d1 sid = Ok (store (add_drink d s sid form id), t) /\
    sess (add_drink d s sid form id) = s /\
    payload (resp (add_drink d s sid form id))
    = DrinkAdded id
        {| Drink.session_id := sid; Drink.calories := calories_per_serving dt c;
           Drink.abv := abv; Drink.volume_oz := vol; Drink.count := count |}.
Proof.
  unfold add_drink.
  destruct (get_current_user_email s) as [user |] eqn:Hu; [| discriminate].
  destruct (sessions d !! sid) as [srow |] eqn:Hrow; [| discriminate].
  destruct (String.eqb_spec (Session.user_email srow) user) as [Hown | Hown];
    cbn [negb]; [| discriminate].
  destruct (drink_type form) as [dt |] eqn:Hdt; [| discriminate].
  destruct (assoc dt DRINK_PRESETS) as [preset |] eqn:Hp; [| discriminate].
  destruct (dynamic_properties dt preset form) as [abv vol count | msg | e] eqn:Hdyn;
    [| discriminate | discriminate].
  destruct (calculate_calories abv vol) as [c | e] eqn:Hc; [| discriminate].
  cbv zeta.
  destruct (insert_drink d id _) as [d1 | e] eqn:Hins; cbn [rbind]; [| discriminate].
  destruct (update_session_calories d1 sid) as [[d2 t] | e] eqn:Hupd; [| discriminate].
  intros _. exists user, srow, dt, preset, abv, vol, count, c, d1, t.
  repeat split; auto.
Qed.

Lemma preset_cases (dt : string) (p : preset) :
  assoc dt DRINK_PRESETS = Some p ->
  dt = "beer"%string \/ dt = "ipa"%string \/ dt = "wine"%string \/
  dt = "shot_spirit"%string \/ dt = "mixed_drink"%string \/ dt = "mixed_drink_diet"%string.
Proof.
  unfold DRINK_PRESETS. cbn [assoc].
  destruct (String.eqb_spec dt "beer"); [auto |].
  destruct (String.eqb_spec dt "ipa"); [auto |].
  destruct (String.eqb_spec dt "wine"); [auto |].
  destruct (String.eqb_spec dt "shot_spirit"); [auto |].
  destruct (String.eqb_spec dt "mixed_drink"); [auto 6 |].
  destruct (String.eqb_spec dt "mixed_drink_diet"); [auto 6 |].
  discriminate.
Qed.

Lemma dynamic_standard (dt : string) (p : preset) (form : drink_form)
    (abv vol : float) (count : Z) :
  dt = "beer"%string \/ dt = "wine"%string \/ dt = "ipa"%string ->
  dynamic_properties dt p form = Resolved abv vol count ->
  form_float (custom_abv form) = Ok abv /\
  form_float (liquid_ounces form) = Ok vol /\
  count = 1.
Proof.
  intros Hdt. unfold dynamic_properties.
  assert (Hm : str_in dt ["mixed_drink"; "mixed_drink_diet"]%string = false)
    by (destruct Hdt as [-> | [-> | ->]]; reflexivity).
  assert (Hs : String.eqb dt "shot_spirit" = false)
    by (destruct Hdt as [-> | [-> | ->]]; reflexivity).
  rewrite Hm, Hs. cbn [negb].
  destruct (form_float (custom_abv form)) as [a | e]; cbn [rbind].
  - destruct (form_float (liquid_ounces form)) as [v | e]; cbn [rbind].
    + intros [= <- <- <-]. auto.
    + destruct e; discriminate.
  - destruct e; discriminate.
Qed.

Lemma dynamic_shot (p : preset) (form : drink_form) (abv vol : float) (count : Z) :
  dynamic_properties "shot_spirit" p form = Resolved abv vol count ->
  abv = p_abv p /\ vol = p_volume_oz p /\ count = 1.
Proof.
  unfold dynamic_properties. cbn. intros [= <- <- <-]. auto.
Qed.

Lemma dynamic_mixed (dt : string) (p : preset) (form : drink_form)
    (abv vol : float) (count : Z) :
  dt = "mixed_drink"%string \/ dt = "mixed_drink_diet"%string ->
  dynamic_properties dt p form = Resolved abv vol count ->
  abv = p_abv p /\ vol = p_volume_oz p /\ shots_count (liquid_ounces form) = Ok count.
Proof.
  intros Hdt. unfold dynamic_properties.
  assert (Hm : str_in dt ["mixed_drink"; "mixed_drink_diet"]%string = true)
    by (destruct Hdt as [-> | ->]; reflexivity).
  rewrite Hm.
  destruct (shots_count (liquid_ounces form)) as [n | e].
  - intros [= <- <- <-]. auto.
  - destruct e; discriminate.
Qed.

(** C4: for every [add_drink] request that is accepted (answers 200), the
    calories per serving of the row that is stored, which are the ones of
    the response, are
    - the alcohol-calorie formula on the effective (form-supplied) ABV and
      volume plus 20 for beer, plus 30 for wine, plus 75 for ipa;
    - the flat 100 for shot_spirit and mixed_drink_diet, and 100 + 50 for
      mixed_drink, on the pinned 40 percent and 1.5 oz.
    The row holds the effective ABV and volume as the REAL columns give them
    back: a negative zero of the form is stored as a positive zero. *)
Theorem C4_per_serving_calories (d : db) (s : Flask.session) (sid : string)
    (form : drink_form) (id : string) :
  status (resp (add_drink d s sid form id)) = 200 ->
  exists dt drink row c,
    drink_type form = Some dt /\
    payload (resp (add_drink d s sid form id)) = DrinkAdded id drink /\
    drinks (store (add_drink d s sid form id)) !! id = Some row /\
    Drink.session_id row = sid /\
    Drink.calories row = Drink.calories drink /\
    Drink.abv row = real_stored (Drink.abv drink) /\
    Drink.volume_oz row = real_stored (Drink.volume_oz drink) /\
    Drink.count row = Drink.count drink /\
    alcohol_calories_spec (Drink.abv drink) (Drink.volume_oz drink) = Ok c /\
    ((dt = "beer"%string /\ Drink.calories row = c + 20 /\
      form_float (custom_abv form) = Ok (Drink.abv drink) /\
      form_float (liquid_ounces form) = Ok (Drink.volume_oz drink)) \/
     (dt = "wine"%string /\ Drink.calories row = c + 30 /\
      form_float (custom_abv form) = Ok (Drink.abv drink) /\
      form_float (liquid_ounces form) = Ok (Drink.volume_oz drink)) \/
     (dt = "ipa"%string /\ Drink.calories row = c + 75 /\
      form_float (custom_abv form) = Ok (Drink.abv drink) /\
      form_float (liquid_ounces form) = Ok (Drink.volume_oz drink)) \/
     (dt = "shot_spirit"%string /\ Drink.calories row = 100 /\
      Drink.abv drink = literal "40.0" /\ Drink.volume_oz drink = literal "1.5") \/
     (dt = "mixed_drink"%string /\ Drink.calories row = 100 + 50 /\
      Drink.abv drink = literal "40.0" /\ Drink.volume_oz drink = literal "1.5") \/
     (dt = "mixed_drink_diet"%string /\ Drink.calories row = 100 /\
      Drink.abv drink = literal "40.0" /\ Drink.volume_oz drink = literal "1.5")).
Proof.
  intros H.
  destruct (add_drink_ok_inv _ _ _ _ _ H)
    as (user & srow & dt & p & abv & vol & count & c & d1 & t
        & _ & _ & _ & Hdt & Hp & Hdyn & Hc & Hins & Hupd & _ & Hpay).
  exists dt. eexists. eexists. exists c.
  split; [exact Hdt |].
  split; [exact Hpay |].
  split.
  { apply insert_drink_ok in Hins as [_ ->].
    apply update_session_calories_ok in Hupd as [_ ->].
    cbn. apply lookup_insert_eq. }
  cbn [stored_drink Drink.session_id Drink.calories Drink.abv Drink.volume_oz Drink.count].
  do 5 (split; [reflexivity |]).
  split; [rewrite <- calculate_calories_unfold; exact Hc |].
  destruct (preset_cases _ _ Hp) as [-> | [-> | [-> | [-> | [-> | ->]]]]].
  - left. destruct (dynamic_standard _ _ _ _ _ _ (or_introl eq_refl) Hdyn) as (Ha & Hv & _).
    repeat split; auto.
  - right. right. left.
    destruct (dynamic_standard _ _ _ _ _ _ (or_intror (or_intror eq_refl)) Hdyn)
      as (Ha & Hv & _).
    repeat split; auto.
  - right. left.
    destruct (dynamic_standard _ _ _ _ _ _ (or_intror (or_introl eq_refl)) Hdyn)
      as (Ha & Hv & _).
    repeat split; auto.
  - right. right. right. left.
    apply dynamic_shot in Hdyn as (-> & -> & _).
    injection Hp as <-. repeat split; reflexivity.
  - right. right. right. right. left.
    apply (dynamic_mixed _ _ _ _ _ _ (or_introl eq_refl)) in Hdyn as (-> & -> & _).
    injection Hp as <-. repeat split; reflexivity.
  - right. right. right. right. right.
    apply (dynamic_mixed _ _ _ _ _ _ (or_intror eq_refl)) in Hdyn as (-> & -> & _).
    injection Hp as <-. repeat split; reflexivity.
Qed.

(** The example of the specification: a beer at 5.0 percent and 12 oz is
    stored at 98 + 20 = 118 kcal per serving.  A beer of -0.0 oz is answered
    with the volume -0.0 and stored with the volume 0.0, at 0 + 20 kcal. *)
Lemma C4_per_serving_calories_witness :
  (status (resp (add_drink db0 sess0 "s1" beer_form "d3")) = 200 /\
   exists row,
     drinks (store (add_drink db0 sess0 "s1" beer_form "d3")) !! "d3"%string = Some row /\
     alcohol_calories_spec (Drink.abv row) (Drink.volume_oz row) = Ok 98 /\
     Drink.calories row = 118) /\
  (exists drink row,
     payload (resp (add_drink db0 sess0 "s1" flat_form "d3")) = DrinkAdded "d3" drink /\
     drinks (store (add_drink db0 sess0 "s1" flat_form "d3")) !! "d3"%string = Some row /\
     Drink.volume_oz drink = S754_zero true /\
     Drink.volume_oz row = S754_zero false /\
     Drink.calories row = 20).
Proof.
  split.
  - assert (H : status (resp (add_drink db0 sess0 "s1" beer_form "d3")) = 200)
      by (vm_compute; reflexivity).
    split; [exact H |].
    destruct (C4_per_serving_calories db0 sess0 "s1" beer_form "d3" H)
      as (dt & drink & row & c & _ & _ & Hrow & _).
    exists row. split; [exact Hrow |].
    assert (E : drinks (store (add_drink db0 sess0 "s1" beer_form "d3")) !! "d3"%string
                = Some {| Drink.session_id := "s1"; Drink.calories := 118;
                          Drink.abv := literal "5.0"; Drink.volume_oz := literal "12";
                          Drink.count := 1 |})
      by (vm_compute; reflexivity).
    rewrite E in Hrow. injection Hrow as <-.
    split; vm_compute; reflexivity.
  - assert (H : status (resp (add_drink db0 sess0 "s1" flat_form "d3")) = 200)
      by (vm_compute; reflexivity).
    destruct (C4_per_serving_calories db0 sess0 "s1" flat_form "d3" H)
      as (dt & drink & row & c & _ & Hpay & Hrow & _ & Hcal & _ & Hvol & _).
    assert (E : payload (resp (add_drink db0 sess0 "s1" flat_form "d3"))
                = DrinkAdded "d3"
                    {| Drink.session_id := "s1"; Drink.calories := 20;
                       Drink.abv := literal "5"; Drink.volume_oz := S754_zero true;
                       Drink.count := 1 |})
      by (vm_compute; reflexivity).
    rewrite E in Hpay. injection Hpay as <-.
    eexists. exists row.
    split; [exact E |]. split; [exact Hrow |]. split; [reflexivity |].
    split; [exact Hvol | exact Hcal].
Defined.

(** * The shot count of mixed drinks *)












(** * The cached total of a session *)

Lemma zsum_filter_terms (sid : string) (l : list (string * Drink.row)) :
  zsum (map (fun kv => Drink.calories kv.2 * Drink.count kv.2)
            (filter (fun kv => Drink.session_id kv.2 = sid) l))
  = zsum (map (drink_term sid) l).
Proof.
  induction l as [| kv l IH]; [reflexivity |].
  rewrite filter_cons. change (map (drink_term sid) (kv :: l))
    with (drink_term sid kv :: map (drink_term sid) l).
  change (zsum (drink_term sid kv :: map (drink_term sid) l))
    with (drink_term sid kv + zsum (map (drink_term sid) l)).
  rewrite <- IH. unfold drink_term.
  destruct (decide (Drink.session_id kv.2 = sid)); [reflexivity | lia].
Qed.

Lemma drink_sum_table (d : db) (sid : string) :
  drink_sum d sid = table_sum sid (drinks d).
Proof. apply zsum_filter_terms. Qed.

Lemma zsum_perm (l l' : list Z) : l ≡ₚ l' -> zsum l = zsum l'.
Proof.
  induction 1 as [| x l l' _ IH | x y l | l l' l'' _ IH1 _ IH2]; simpl.
  - reflexivity.
  - rewrite IH. reflexivity.
  - lia.
  - congruence.
Qed.

Lemma table_sum_insert (sid k : string) (r : Drink.row) (m : gmap string Drink.row) :
  m !! k = None ->
  table_sum sid (<[k := r]> m) = drink_term sid (k, r) + table_sum sid m.
Proof.
  intros Hk. unfold table_sum.
  rewrite (zsum_perm _ (map (drink_term sid) ((k, r) :: map_to_list m))).
  - reflexivity.
  - apply Permutation_map. apply map_to_list_insert. exact Hk.
Qed.

Lemma table_sum_lookup (sid k : string) (r : Drink.row) (m : gmap string Drink.row) :
  m !! k = Some r ->
  table_sum sid m = drink_term sid (k, r) + table_sum sid (delete k m).
Proof.
  intros Hk. unfold table_sum.
  rewrite <- (zsum_perm (map (drink_term sid) ((k, r) :: map_to_list (delete k m)))).
  - reflexivity.
  - apply Permutation_map. apply map_to_list_delete. exact Hk.
Qed.

Lemma table_sum_alter (sid k : string) (f : Drink.row -> Drink.row) (r : Drink.row)
    (m : gmap string Drink.row) :
  m !! k = Some r ->
  table_sum sid (alter f k m) = drink_term sid (k, f r) + table_sum sid (delete k m).
Proof.
  intros Hk.
  rewrite (table_sum_lookup sid k (f r) (alter f k m)).
  - rewrite delete_alter_eq. reflexivity.
  - rewrite lookup_alter_eq, Hk. reflexivity.
Qed.

Lemma drink_term_other (sid sid' k : string) (r : Drink.row) :
  Drink.session_id r = sid -> sid' <> sid -> drink_term sid' (k, r) = 0.
Proof.
  intros Hr Hne. unfold drink_term. cbn.
  destruct (decide (Drink.session_id r = sid')); [congruence | reflexivity].
Qed.

(** The recomputation writes the sum of the session's drinks in its row. *)
Lemma update_session_calories_matches (d d' : db) (sid : string) (t : Z) (row : Session.row) :
  sessions d !! sid = Some row ->
  update_session_calories d sid = Ok (d', t) ->
  total_matches d' sid /\ t = drink_sum d sid /\ drinks d' = drinks d /\
  (forall sid', sid' <> sid -> sessions d' !! sid' = sessions d !! sid').
Proof.
  intros Hrow Hupd.
  apply update_session_calories_ok in Hupd as [Ht ->].
  assert (Hsum : t = drink_sum d sid).
  { rewrite Ht. unfold drink_sum.
    rewrite (fold_left_add_zsum
               (fun kv : string * Drink.row => Drink.calories kv.2 * Drink.count kv.2)).
    lia. }
  split; [| split; [exact Hsum | split; [reflexivity |]]].
  - exists (set_total t row). cbn. rewrite lookup_alter_eq, Hrow. split; [reflexivity |].
    cbn. exact Hsum.
  - intros sid' Hne. cbn. apply lookup_alter_ne. congruence.
Qed.

(** * Updating a drink *)

Lemma owned_drink_inv (d : db) (did sid user : string) (row : Drink.row) :
  owned_drink d did sid user = Some row ->
  drinks d !! did = Some row /\ Drink.session_id row = sid /\
  exists srow, sessions d !! sid = Some srow /\ Session.user_email srow = user.
Proof.
  unfold owned_drink.
  destruct (drinks d !! did) as [r |]; [| discriminate].
  destruct (String.eqb_spec (Drink.session_id r) sid) as [Hs | Hs]; [| discriminate].
  destruct (sessions d !! sid) as [srow |]; [| discriminate].
  destruct (String.eqb_spec (Session.user_email srow) user) as [Hu | Hu]; [| discriminate].
  intros [= <-]. split; [reflexivity |]. split; [exact Hs |]. exists srow. auto.
Qed.

Lemma update_count_ok (d d1 : db) (did : string) (n : Z) :
  update_count d did n = Ok d1 ->
  d1 = with_drinks (alter (set_count n) did (drinks d)) d.
Proof.
  unfold update_count. destruct (bind_int n) as [n' |] eqn:Hn; cbn [rbind]; [| discriminate].
  apply bind_int_ok in Hn. subst n'. intros [= <-]. reflexivity.
Qed.

(** What a request of [update_drink] that answers 200 went through. *)
Lemma update_drink_ok_inv (d : db) (s : Flask.session) (sid did : string) (data : dict) :
  status (resp (update_drink d s sid did data)) = 200 ->
  exists user row d1 b t,
    get_current_user_email s = Some user /\
    owned_drink d did sid user = Some row /\
    drink_step d did row (dict_get "action" data) d1 b /\
    update_session_calories d1 sid = Ok (store (update_drink d s sid did data), t) /\
    payload (resp (update_drink d s sid did data)) = b /\
    sess (update_drink d s sid did data) = s.
Proof.
  unfold update_drink.
  destruct (get_current_user_email s) as [user |] eqn:Hu; [| discriminate].
  destruct (owned_drink d did sid user) as [row |] eqn:Hrow; [| discriminate].
  cbv zeta.
  destruct (is_action (dict_get "action" data) "increment") eqn:Hinc.
  - destruct (update_count d did (Drink.count row + 1)) as [d1 | e] eqn:Hcnt;
      cbn [rbind fst snd]; [| discriminate].
    destruct (update_session_calories d1 sid) as [[d2 t] | e] eqn:Hupd;
      cbn [rbind fst snd]; [| discriminate].
    intros _. exists user, row, d1. eexists. exists t.
    repeat split; try reflexivity; auto.
    apply step_increment; assumption.
  - destruct (is_action (dict_get "action" data) "decrement") eqn:Hdec; [| discriminate].
    destruct (Z.leb_spec (Drink.count row - 1) 0) as [Hle | Hgt].
    + cbn [rbind fst snd].
      destruct (update_session_calories _ sid) as [[d2 t] | e] eqn:Hupd;
        cbn [rbind fst snd]; [| discriminate].
      intros _. exists user, row. eexists. eexists. exists t.
      repeat split; try reflexivity; auto.
      * apply step_remove; assumption.
      * exact Hupd.
    + destruct (update_count d did (Drink.count row - 1)) as [d1 | e] eqn:Hcnt;
        cbn [rbind fst snd]; [| discriminate].
      destruct (update_session_calories d1 sid) as [[d2 t] | e] eqn:Hupd;
        cbn [rbind fst snd]; [| discriminate].
      intros _. exists user, row, d1. eexists. exists t.
      repeat split; try reflexivity; auto.
      apply step_decrement; assumption.
Qed.

(** A request that does not answer 200 leaves the store as it was. *)
Lemma add_drink_store (d : db) (s : Flask.session) (sid : string) (form : drink_form)
    (id : string) :
  status (resp (add_drink d s sid form id)) = 200 \/ store (add_drink d s sid form id) = d.
Proof.
  unfold add_drink.
  destruct (get_current_user_email s); [| right; reflexivity].
  destruct (sessions d !! sid); [| right; reflexivity].
  destruct (negb _); [right; reflexivity |].
  destruct (drink_type form); [| right; reflexivity].
  destruct (assoc _ DRINK_PRESETS); [| right; reflexivity].
  destruct (dynamic_properties _ _ _); [| right; reflexivity | right; reflexivity].
  destruct (calculate_calories _ _); [| right; reflexivity].
  cbv zeta.
  destruct (rbind _ _) as [[d2 t] | e]; [left | right]; reflexivity.
Qed.

Lemma update_drink_store (d : db) (s : Flask.session) (sid did : string) (data : dict) :
  status (resp (update_drink d s sid did data)) = 200 \/
  store (update_drink d s sid did data) = d.
Proof.
  unfold update_drink.
  destruct (get_current_user_email s); [| right; reflexivity].
  destruct (owned_drink d did sid _); [| right; reflexivity].
  cbv zeta.
  destruct (is_action _ "increment").
  - destruct (rbind _ _) as [[d2 b] | e]; [left | right]; reflexivity.
  - destruct (is_action _ "decrement"); [| right; reflexivity].
    destruct (_ <=? 0).
    + destruct (rbind _ _) as [[d2 b] | e]; [left | right]; reflexivity.
    + destruct (rbind _ _) as [[d2 b] | e]; [left | right]; reflexivity.
Qed.

(** A step on a drink of session [sid] changes no session row and no sum of
    another session. *)
Lemma drink_step_frame (d d1 : db) (did sid : string) (row : Drink.row) (action : json)
    (b : body) :
  drinks d !! did = Some row ->
  Drink.session_id row = sid ->
  drink_step d did row action d1 b ->
  sessions d1 = sessions d /\
  forall sid', sid' <> sid -> drink_sum d1 sid' = drink_sum d sid'.
Proof.
  intros Hrow Hsid Hstep.
  assert (Halter : forall n sid', sid' <> sid ->
            table_sum sid' (alter (set_count n) did (drinks d)) = table_sum sid' (drinks d)).
  { intros n sid' Hne.
    rewrite (table_sum_alter sid' did (set_count n) row _ Hrow).
    rewrite (table_sum_lookup sid' did row _ Hrow).
    rewrite (drink_term_other sid sid' did row Hsid Hne).
    rewrite (drink_term_other sid sid' did (set_count n row) Hsid Hne). reflexivity. }
  destruct Hstep as [d1 _ Hcnt | _ _ _ | d1 _ _ _ Hcnt].
  - apply update_count_ok in Hcnt as ->. split; [reflexivity |].
    intros sid' Hne. rewrite !drink_sum_table. cbn. apply Halter. exact Hne.
  - split; [reflexivity |].
    intros sid' Hne. rewrite !drink_sum_table. cbn.
    rewrite (table_sum_lookup sid' did row _ Hrow).
    rewrite (drink_term_other sid sid' did row Hsid Hne). reflexivity.
  - apply update_count_ok in Hcnt as ->. split; [reflexivity |].
    intros sid' Hne. rewrite !drink_sum_table. cbn. apply Halter. exact Hne.
Qed.

Lemma insert_drink_frame (d d1 : db) (id sid : string) (r : Drink.row) :
  Drink.session_id r = sid ->
  insert_drink d id r = Ok d1 ->
  sessions d1 = sessions d /\
  forall sid', sid' <> sid -> drink_sum d1 sid' = drink_sum d sid'.
Proof.
  intros Hsid Hins. apply insert_drink_ok in Hins as [Hfresh ->].
  split; [reflexivity |].
  intros sid' Hne. rewrite !drink_sum_table. cbn [drinks with_drinks].
  rewrite (table_sum_insert sid' id (stored_drink r) _ Hfresh).
  rewrite (drink_term_other sid sid' id (stored_drink r) Hsid Hne). reflexivity.
Qed.

(** Recomputing session [sid] after a change confined to the drinks of
    [sid] keeps every session row equal to the sum over its drinks. *)
Lemma recompute_consistent (d d1 d' : db) (sid : string) (t : Z) (srow : Session.row) :
  consistent d ->
  sessions d1 = sessions d ->
  (forall sid', sid' <> sid -> drink_sum d1 sid' = drink_sum d sid') ->
  sessions d !! sid = Some srow ->
  update_session_calories d1 sid = Ok (d', t) ->
  consistent d'.
Proof.
  intros Hcons Hsess Hsum Hrow Hupd.
  rewrite <- Hsess in Hrow.
  destruct (update_session_calories_matches _ _ _ _ _ Hrow Hupd)
    as ((row' & Hrow' & Htot) & _ & Hdr & Hother).
  intros sid0 row0 H0.
  destruct (decide (sid0 = sid)) as [-> | Hne].
  - rewrite Hrow' in H0. injection H0 as <-. exact Htot.
  - rewrite (Hother _ Hne), Hsess in H0.
    rewrite (Hcons _ _ H0), <- (Hsum _ Hne).
    unfold drink_sum, session_drinks. rewrite Hdr. reflexivity.
Qed.

(** C1: after an [add_drink] or an [update_drink] (increment, decrement, or
    the decrement that deletes the row) that completed with 200, the
    [total_calories] of the session row is the sum of [calories * count] over
    the drink rows that now belong to the session; and when every session row
    cached the sum of its drinks before the request, every session row does so
    after it, whatever the request answered. *)
Theorem C1_cached_total (d : db) (s : Flask.session) (sid : string) :
  (forall form id,
     status (resp (add_drink d s sid form id)) = 200 ->
     total_matches (store (add_drink d s sid form id)) sid) /\
  (forall did data,
     status (resp (update_drink d s sid did data)) = 200 ->
     total_matches (store (update_drink d s sid did data)) sid) /\
  (consistent d ->
     (forall form id, consistent (store (add_drink d s sid form id))) /\
     (forall did data, consistent (store (update_drink d s sid did data)))).
Proof.
  assert (Hadd : forall form id,
            status (resp (add_drink d s sid form id)) = 200 ->
            total_matches (store (add_drink d s sid form id)) sid /\
            (consistent d -> consistent (store (add_drink d s sid form id)))).
  { intros form id H.
    destruct (add_drink_ok_inv _ _ _ _ _ H)
      as (user & srow & dt & p & abv & vol & count & c & d1 & t
          & _ & Hrow & _ & _ & _ & _ & _ & Hins & Hupd & _ & _).
    assert (Hfr : sessions d1 = sessions d /\
                  forall sid', sid' <> sid -> drink_sum d1 sid' = drink_sum d sid').
    { eapply insert_drink_frame; [| exact Hins]. reflexivity. }
    destruct Hfr as [Hsess Hsum].
    split.
    - assert (Hrow1 : sessions d1 !! sid = Some srow) by (rewrite Hsess; exact Hrow).
      apply (update_session_calories_matches _ _ _ _ _ Hrow1 Hupd).
    - intros Hcons. exact (recompute_consistent _ _ _ _ _ _ Hcons Hsess Hsum Hrow Hupd). }
  assert (Hupdate : forall did data,
            status (resp (update_drink d s sid did data)) = 200 ->
            total_matches (store (update_drink d s sid did data)) sid /\
            (consistent d -> consistent (store (update_drink d s sid did data)))).
  { intros did data H.
    destruct (update_drink_ok_inv _ _ _ _ _ H)
      as (user & row & d1 & b & t & _ & Hown & Hstep & Hupd & _ & _).
    destruct (owned_drink_inv _ _ _ _ _ Hown) as (Hdrink & Hsid & srow & Hrow & _).
    destruct (drink_step_frame _ _ _ _ _ _ _ Hdrink Hsid Hstep) as [Hsess Hsum].
    split.
    - assert (Hrow1 : sessions d1 !! sid = Some srow) by (rewrite Hsess; exact Hrow).
      apply (update_session_calories_matches _ _ _ _ _ Hrow1 Hupd).
    - intros Hcons. exact (recompute_consistent _ _ _ _ _ _ Hcons Hsess Hsum Hrow Hupd). }
  split; [intros form id H; apply (Hadd form id H) |].
  split; [intros did data H; apply (Hupdate did data H) |].
  intros Hcons. split.
  - intros form id. destruct (add_drink_store d s sid form id) as [H | ->].
    + apply (Hadd form id H). exact Hcons.
    + exact Hcons.
  - intros did data. destruct (update_drink_store d s sid did data) as [H | ->].
    + apply (Hupdate did data H). exact Hcons.
    + exact Hcons.
Qed.

Lemma db0_consistent : consistent db0.
Proof.
  intros sid row H. cbn in H.
  apply lookup_singleton_Some in H as [<- <-].
  vm_compute. reflexivity.
Qed.

(** On the example store: adding a beer brings the total of "s1" from 418 to
    536, and decrementing the single beer "d1" deletes it and brings the
    total to 300. *)
Lemma C1_cached_total_witness :
  total_matches (store (add_drink db0 sess0 "s1" beer_form "d3")) "s1" /\
  Session.total_calories <$> sessions (store (add_drink db0 sess0 "s1" beer_form "d3"))
     !! "s1"%string = Some 536 /\
  total_matches (store (update_drink db0 sess0 "s1" "d1" (action "decrement"))) "s1" /\
  Session.total_calories <$>
     sessions (store (update_drink db0 sess0 "s1" "d1" (action "decrement")))
     !! "s1"%string = Some 300 /\
  consistent (store (add_drink db0 sess0 "s1" beer_form "d3")) /\
  consistent (store (update_drink db0 sess0 "s1" "d1" (action "decrement"))).
Proof.
  destruct (C1_cached_total db0 sess0 "s1") as (Hadd & Hupd & Hcons).
  destruct (Hcons db0_consistent) as [Hca Hcu].
  split; [apply Hadd; vm_compute; reflexivity |].
  split; [vm_compute; reflexivity |].
  split; [apply Hupd; vm_compute; reflexivity |].
  split; [vm_compute; reflexivity |].
  split; [apply Hca | apply Hcu].
Defined.

(** * Positive floats stay positive under rounding *)

Lemma digits2_pos_bounds (p : positive) :
  2 ^ (Zpos (digits2_pos p) - 1) <= Zpos p < 2 ^ Zpos (digits2_pos p).
Proof.
  induction p as [p IH | p IH |]; cbn [digits2_pos].
  - rewrite Pos2Z.inj_succ.
    replace (Z.succ (Zpos (digits2_pos p)) - 1) with (Z.succ (Zpos (digits2_pos p) - 1)) by lia.
    rewrite !Z.pow_succ_r by lia. lia.
  - rewrite Pos2Z.inj_succ.
    replace (Z.succ (Zpos (digits2_pos p)) - 1) with (Z.succ (Zpos (digits2_pos p) - 1)) by lia.
    rewrite !Z.pow_succ_r by lia. lia.
  - simpl. lia.
Qed.

Lemma digits2_pos_mono (p q : positive) :
  (p <= q)%positive -> Zpos (digits2_pos p) <= Zpos (digits2_pos q).
Proof.
  intros Hle.
  pose proof (digits2_pos_bounds p) as [Hp _].
  pose proof (digits2_pos_bounds q) as [_ Hq].
  assert (H : 2 ^ (Zpos (digits2_pos p) - 1) < 2 ^ Zpos (digits2_pos q)) by lia.
  apply Z.pow_lt_mono_r_iff in H; lia.
Qed.

Lemma digits2_pos_iter_xO (p d : positive) :
  Zpos (digits2_pos (Pos.iter xO p d)) = Zpos (digits2_pos p) + Zpos d.
Proof.
  induction d as [| d IH] using Pos.peano_ind.
  - simpl. lia.
  - rewrite Pos.iter_succ. cbn [digits2_pos]. lia.
Qed.

Lemma shr_1_div2 (r : shr_record) :
  0 <= shr_m r -> shr_m (shr_1 r) = shr_m r / 2.
Proof.
  destruct r as [m b c]. cbn [shr_m]. intros Hm.
  destruct m as [| [p | p |] |]; cbn [shr_1 shr_m].
  - reflexivity.
  - rewrite (Pos2Z.inj_xI p). apply (Z.div_unique _ 2 _ 1); lia.
  - rewrite (Pos2Z.inj_xO p). apply (Z.div_unique _ 2 _ 0); lia.
  - reflexivity.
  - lia.
Qed.

Lemma pow2_xO (n : positive) : 2 ^ Zpos n~0 = 2 ^ Zpos n * 2 ^ Zpos n.
Proof. rewrite <- Z.pow_add_r by lia. f_equal. lia. Qed.

Lemma pow2_xI (n : positive) : 2 ^ Zpos n~1 = 2 * (2 ^ Zpos n * 2 ^ Zpos n).
Proof.
  rewrite <- Z.pow_add_r by lia. rewrite <- Z.pow_succ_r by lia. f_equal. lia.
Qed.

Lemma shr_iter_div (n : positive) (r : shr_record) :
  0 <= shr_m r -> shr_m (SpecFloat.iter_pos shr_1 n r) = shr_m r / 2 ^ Zpos n.
Proof.
  revert r. induction n as [n IH | n IH |]; intros r Hm; cbn [SpecFloat.iter_pos].
  - assert (HP : 0 < 2 ^ Zpos n) by (apply Z.pow_pos_nonneg; lia).
    assert (H1 : 0 <= shr_m (shr_1 r))
      by (rewrite shr_1_div2 by exact Hm; apply Z.div_pos; lia).
    assert (H2 : 0 <= shr_m (SpecFloat.iter_pos shr_1 n (shr_1 r)))
      by (rewrite IH by exact H1; apply Z.div_pos; [exact H1 | exact HP]).
    rewrite IH by exact H2. rewrite IH by exact H1. rewrite shr_1_div2 by exact Hm.
    rewrite !Zdiv_Zdiv by lia. rewrite pow2_xI. f_equal.
  - assert (HP : 0 < 2 ^ Zpos n) by (apply Z.pow_pos_nonneg; lia).
    assert (H1 : 0 <= shr_m (SpecFloat.iter_pos shr_1 n r))
      by (rewrite IH by exact Hm; apply Z.div_pos; [exact Hm | exact HP]).
    rewrite IH by exact H1. rewrite IH by exact Hm.
    rewrite Zdiv_Zdiv by lia. rewrite pow2_xO. reflexivity.
  - rewrite shr_1_div2 by exact Hm. reflexivity.
Qed.

Lemma shr_record_of_loc_m (m : Z) (l : location) : shr_m (shr_record_of_loc m l) = m.
Proof. destruct l as [| []]; reflexivity. Qed.

(** Shifting to the canonical exponent keeps a mantissa above the smallest
    subnormal positive. *)
Lemma shr_fexp_pos (m : positive) (e : Z) (l : location) :
  -1074 < Zpos (digits2_pos m) + e ->
  exists mrs e' q,
    shr_fexp prec emax (Zpos m) e l = (mrs, e') /\
    shr_m mrs = Zpos q /\
    -1074 < Zpos (digits2_pos q) + e'.
Proof.
  intros Hb. unfold shr_fexp, shr. cbn [Zdigits2].
  destruct (fexp prec emax (Zpos (digits2_pos m) + e) - e) as [| n | n] eqn:Hn.
  - eexists. exists e, m. rewrite shr_record_of_loc_m. auto.
  - assert (Hn' : Zpos n <= Zpos (digits2_pos m) - 1)
      by (unfold fexp, emin, prec, emax in Hn; lia).
    pose proof (digits2_pos_bounds m) as [Hlo _].
    assert (Hpow : 2 ^ Zpos n <= 2 ^ (Zpos (digits2_pos m) - 1))
      by (apply Z.pow_le_mono_r; lia).
    assert (HP : 0 < 2 ^ Zpos n) by (apply Z.pow_pos_nonneg; lia).
    assert (Hq : 0 < Zpos m / 2 ^ Zpos n) by (apply Z.div_str_pos; lia).
    assert (Hm : shr_m (SpecFloat.iter_pos shr_1 n (shr_record_of_loc (Zpos m) l))
                 = Zpos m / 2 ^ Zpos n).
    { rewrite shr_iter_div; rewrite shr_record_of_loc_m; [reflexivity | lia]. }
    destruct (Zpos m / 2 ^ Zpos n) as [| q | q] eqn:Hdiv; try lia.
    eexists. exists (e + Zpos n), q. split; [reflexivity |]. split; [exact Hm |].
    unfold fexp, emin, prec, emax in Hn. lia.
  - eexists. exists e, m. rewrite shr_record_of_loc_m. auto.
Qed.

Lemma round_nearest_even_pos (q : positive) (l : location) :
  exists q', round_nearest_even (Zpos q) l = Zpos q' /\ (q <= q')%positive.
Proof.
  destruct l as [| []]; cbn [round_nearest_even].
  - exists q. split; [reflexivity | lia].
  - destruct (Z.even (Zpos q)).
    + exists q. split; [reflexivity | lia].
    + exists (q + 1)%positive. split; [reflexivity | lia].
  - exists q. split; [reflexivity | lia].
  - exists (q + 1)%positive. split; [reflexivity | lia].
Qed.

Lemma binary_round_aux_pos (m : positive) (e : Z) (l : location) :
  -1074 < Zpos (digits2_pos m) + e ->
  is_pos (binary_round_aux prec emax false (Zpos m) e l).
Proof.
  intros Hb. unfold binary_round_aux.
  destruct (shr_fexp_pos m e l Hb) as (mrs & e' & q & -> & Hq & Hb').
  rewrite Hq.
  destruct (round_nearest_even_pos q (loc_of_shr_record mrs)) as (q' & -> & Hle).
  assert (Hb'' : -1074 < Zpos (digits2_pos q') + e')
    by (pose proof (digits2_pos_mono q q' Hle); lia).
  destruct (shr_fexp_pos q' e' loc_Exact Hb'') as (mrs'' & e'' & q'' & -> & -> & _).
  destruct (Z.leb e'' (emax - prec)); exact I.
Qed.

Lemma binary_round_pos (m : positive) (e : Z) :
  -1074 < Zpos (digits2_pos m) + e ->
  is_pos (binary_round prec emax false m e).
Proof.
  intros Hb. unfold binary_round, shl_align.
  destruct (fexp prec emax (Zpos (digits2_pos m) + e) - e) as [| d | d] eqn:Hd.
  - apply binary_round_aux_pos. exact Hb.
  - apply binary_round_aux_pos. exact Hb.
  - apply binary_round_aux_pos. rewrite digits2_pos_iter_xO. lia.
Qed.

Lemma shl_align_digits (m : positive) (e e' : Z) :
  e' <= e ->
  Zpos (digits2_pos (shl_align m e e').1) + e' = Zpos (digits2_pos m) + e.
Proof.
  intros Hle. unfold shl_align.
  destruct (e' - e) as [| d | d] eqn:Hd; cbn [fst]; try lia.
  rewrite digits2_pos_iter_xO. lia.
Qed.

(** Ten more minutes than a positive duration is a positive duration. *)
Lemma fadd_ten_pos (x : float) :
  fltb (of_Z 0) x = true -> is_pos (fadd x (of_Z 10)).
Proof.
  destruct x as [s | s | | s m e]; try discriminate.
  - destruct s; [discriminate | intros _; exact I].
  - destruct s; [discriminate |]. intros _.
    change (of_Z 10) with (S754_finite false 5629499534213120 (-49)).
    unfold fadd, SFadd. cbn [cond_Zopp].
    set (ez := Z.min e (-49)).
    set (a := (shl_align m e ez).1).
    set (b := (shl_align 5629499534213120 (-49) ez).1).
    change (Zpos a + Zpos b) with (Zpos (a + b)).
    cbn [binary_normalize].
    apply binary_round_pos.
    assert (Hb : Zpos (digits2_pos b) + ez = 53 + -49).
    { unfold b. rewrite shl_align_digits by (unfold ez; lia). reflexivity. }
    assert (Hmono : Zpos (digits2_pos b) <= Zpos (digits2_pos (a + b)))
      by (apply digits2_pos_mono; lia).
    lia.
Qed.

Lemma pos_not_le_zero (x : float) : is_pos x -> fleb x (of_Z 0) = false.
Proof.
  destruct x as [s | s | | s m e]; simpl; try contradiction.
  - destruct s; [contradiction | reflexivity].
  - destruct s; [contradiction | reflexivity].
Qed.

(** * The increment/decrement state machine *)

Lemma bind_int_int64 (z : Z) : int64 z -> bind_int z = Ok z.
Proof.
  unfold int64, bind_int. intros H.
  destruct (_ && _) eqn:Hb; [reflexivity |].
  apply andb_false_iff in Hb as [Hb | Hb]; lia.
Qed.

Lemma session_fold_sum (d : db) (sid : string) :
  fold_left (fun acc drink => acc + Drink.calories drink.2 * Drink.count drink.2)
            (session_drinks d sid) 0
  = drink_sum d sid.
Proof.
  unfold drink_sum.
  rewrite (fold_left_add_zsum
             (fun kv : string * Drink.row => Drink.calories kv.2 * Drink.count kv.2)).
  lia.
Qed.

Lemma drink_term_own (sid k : string) (r : Drink.row) :
  Drink.session_id r = sid -> drink_term sid (k, r) = Drink.calories r * Drink.count r.
Proof.
  intros Hr. unfold drink_term. cbn.
  destruct (decide (Drink.session_id r = sid)); [reflexivity | contradiction].
Qed.

Lemma drink_sum_set_count (d : db) (did sid : string) (row : Drink.row) (n : Z) :
  drinks d !! did = Some row ->
  Drink.session_id row = sid ->
  drink_sum (with_drinks (alter (set_count n) did (drinks d)) d) sid
  = drink_sum d sid - Drink.calories row * Drink.count row + Drink.calories row * n.
Proof.
  intros Hrow Hsid. rewrite !drink_sum_table. cbn [drinks with_drinks].
  rewrite (table_sum_alter sid did (set_count n) row _ Hrow).
  rewrite (table_sum_lookup sid did row _ Hrow).
  rewrite (drink_term_own sid did row Hsid).
  rewrite (drink_term_own sid did (set_count n row) Hsid). cbn. lia.
Qed.

Lemma drink_sum_delete (d : db) (did sid : string) (row : Drink.row) :
  drinks d !! did = Some row ->
  Drink.session_id row = sid ->
  drink_sum (with_drinks (delete did (drinks d)) d) sid
  = drink_sum d sid - Drink.calories row * Drink.count row.
Proof.
  intros Hrow Hsid. rewrite !drink_sum_table. cbn [drinks with_drinks].
  rewrite (table_sum_lookup sid did row _ Hrow).
  rewrite (drink_term_own sid did row Hsid). lia.
Qed.

(** The end of [update_drink]: the recomputation of the total on the store
    [d1] of the statement, and the answer. *)
Lemma recompute_outcome (d d1 : db) (s : Flask.session) (sid : string) (b : body)
    (srow : Session.row) (o : outcome) :
  sessions d1 !! sid = Some srow ->
  o = match (t <- update_session_calories d1 sid ;; Ok (t.1, b)) with
      | Ok (d2, response_data) => respond 200 response_data d2 s
      | Raise _ => respond 500 (Error "Internal server error") d s
      end ->
  (failed o d s \/
   (status (resp o) = 200 /\ payload (resp o) = b /\
    drinks (store o) = drinks d1 /\ total_matches (store o) sid)) /\
  (int64 (drink_sum d1 sid) -> status (resp o) = 200).
Proof.
  intros Hrow ->.
  destruct (update_session_calories d1 sid) as [[d2 t] | e] eqn:Hupd; cbn [rbind fst snd].
  - split; [| reflexivity]. right.
    destruct (update_session_calories_matches _ _ _ _ _ Hrow Hupd) as (Hm & _ & Hdr & _).
    auto.
  - split; [left; reflexivity |].
    intros Hfit. exfalso. revert Hupd. unfold update_session_calories.
    rewrite session_fold_sum, (bind_int_int64 _ Hfit). discriminate.
Qed.

Lemma set_count_with (row : Drink.row) (n : Z) : drink_with_count row n (set_count n row).
Proof. unfold drink_with_count. cbn. auto. Qed.

Lemma update_drink_machine (d : db) (s : Flask.session) (sid did user : string)
    (row : Drink.row) :
  get_current_user_email s = Some user ->
  owned_drink d did sid user = Some row ->
  drink_update_spec d s sid did row.
Proof.
  intros Hu Hown.
  destruct (owned_drink_inv _ _ _ _ _ Hown) as (Hdrink & Hsid & srow & Hsrow & _).
  assert (Hset : forall n data msg,
            update_drink d s sid did data
            = match (r <- (d1 <- update_count d did n ;;
                           Ok (d1, DrinkCount msg did (Drink.calories row) n)) ;;
                     t <- update_session_calories r.1 sid ;; Ok (t.1, r.2)) with
              | Ok (d2, response_data) => respond 200 response_data d2 s
              | Raise _ => respond 500 (Error "Internal server error") d s
              end ->
            (failed (update_drink d s sid did data) d s \/
             (status (resp (update_drink d s sid did data)) = 200 /\
              payload (resp (update_drink d s sid did data))
              = DrinkCount msg did (Drink.calories row) n /\
              (exists row', drinks (store (update_drink d s sid did data)) !! did
                            = Some row' /\ drink_with_count row n row') /\
              (forall k, k <> did ->
                 drinks (store (update_drink d s sid did data)) !! k = drinks d !! k) /\
              total_matches (store (update_drink d s sid did data)) sid)) /\
            (int64 n ->
             int64 (drink_sum d sid - Drink.calories row * Drink.count row
                    + Drink.calories row * n) ->
             status (resp (update_drink d s sid did data)) = 200)).
  { intros n data msg E. unfold update_count in E.
    destruct (bind_int n) as [n' |] eqn:Hn; cbn [rbind fst snd] in E.
    - apply bind_int_ok in Hn. subst n'.
      destruct (recompute_outcome d (with_drinks (alter (set_count n) did (drinks d)) d)
                  s sid _ srow _ Hsrow E) as [Hcases Hfit]. split.
      + destruct Hcases as [Hf | (H200 & Hpay & Hdr & Hm)]; [left; exact Hf | right].
        split; [exact H200 |]. split; [exact Hpay |].
        rewrite Hdr. cbn [drinks with_drinks].
        split; [| split; [| exact Hm]].
        * exists (set_count n row). rewrite lookup_alter_eq, Hdrink.
          split; [reflexivity | apply set_count_with].
        * intros k Hk. apply lookup_alter_ne. congruence.
      + intros _ Hsum. apply Hfit.
        rewrite (drink_sum_set_count _ _ _ _ _ Hdrink Hsid). exact Hsum.
    - split; [left; exact E |].
      intros Hfit. rewrite (bind_int_int64 _ Hfit) in Hn. discriminate. }
  split; [| split; [| split]].
  - intros data Ha. cbv zeta.
    destruct (Hset (Drink.count row + 1) data "Drink count incremented"%string)
      as [Hcases Hfit].
    { unfold update_drink. rewrite Hu, Hown. cbv zeta. rewrite Ha. reflexivity. }
    split; [exact Hcases |].
    intros H1 H2. apply (Hfit H1).
    replace (drink_sum d sid - Drink.calories row * Drink.count row
             + Drink.calories row * (Drink.count row + 1))
      with (drink_sum d sid + Drink.calories row) by lia.
    exact H2.
  - intros data Ha Hle. cbv zeta.
    assert (E : update_drink d s sid did data
                = match (t <- update_session_calories
                                (with_drinks (delete did (drinks d)) d) sid ;;
                         Ok (t.1, DrinkRemoved did)) with
                  | Ok (d2, response_data) => respond 200 response_data d2 s
                  | Raise _ => respond 500 (Error "Internal server error") d s
                  end).
    { unfold update_drink. rewrite Hu, Hown. cbv zeta. rewrite Ha.
      change (is_action (JStr "decrement") "increment") with false.
      change (is_action (JStr "decrement") "decrement") with true. cbv iota.
      rewrite (proj2 (Z.leb_le _ _) Hle). reflexivity. }
    destruct (recompute_outcome d (with_drinks (delete did (drinks d)) d)
                s sid _ srow _ Hsrow E) as [Hcases Hfit]. split.
    + destruct Hcases as [Hf | (H200 & Hpay & Hdr & Hm)]; [left; exact Hf | right].
      split; [exact H200 |]. split; [exact Hpay |].
      rewrite Hdr. cbn [drinks with_drinks].
      split; [apply lookup_delete_eq |]. split; [| exact Hm].
      intros k Hk. apply lookup_delete_ne. congruence.
    + intros Hsum. apply Hfit.
      rewrite (drink_sum_delete _ _ _ _ Hdrink Hsid). exact Hsum.
  - intros data Ha Hgt. cbv zeta.
    destruct (Hset (Drink.count row - 1) data "Drink count decremented"%string)
      as [Hcases Hfit].
    { unfold update_drink. rewrite Hu, Hown. cbv zeta. rewrite Ha.
      change (is_action (JStr "decrement") "increment") with false.
      change (is_action (JStr "decrement") "decrement") with true. cbv iota.
      rewrite (proj2 (Z.leb_gt _ _) Hgt). reflexivity. }
    split; [exact Hcases |].
    intros H1 H2. apply (Hfit H1).
    replace (drink_sum d sid - Drink.calories row * Drink.count row
             + Drink.calories row * (Drink.count row - 1))
      with (drink_sum d sid - Drink.calories row) by lia.
    exact H2.
  - intros data [Hinc Hdec]. unfold update_drink.
    rewrite Hu, Hown. cbv zeta. rewrite Hinc, Hdec. reflexivity.
Qed.

Lemma owned_exercise_inv (d : db) (eid sid user : string) (row : Exercise.row) :
  owned_exercise d eid sid user = Some row ->
  exercises d !! eid = Some row /\ Exercise.session_id row = sid.
Proof.
  unfold owned_exercise.
  destruct (exercises d !! eid) as [r |]; [| discriminate].
  destruct (String.eqb_spec (Exercise.session_id r) sid) as [Hs | Hs]; [| discriminate].
  destruct (sessions d !! sid) as [srow |]; [| discriminate].
  destruct (String.eqb (Session.user_email srow) user); [| discriminate].
  intros [= <-]. auto.
Qed.

(** The calculator returns nothing on a duration that is no number. *)
Lemma calculate_burned_calories_nan (met : float) (w : json) (cb : Z) :
  calculate_burned_calories met w S754_nan <> Ok cb.
Proof.
  unfold calculate_burned_calories.
  change (truediv S754_nan (of_Z 60)) with (Ok S754_nan). cbn [rbind].
  destruct (operand w) as [f | e]; cbn [rbind]; [| discriminate].
  destruct (fmul met f); discriminate.
Qed.

Lemma set_minutes_with (row : Exercise.row) (m : float) (cb : Z) :
  exercise_with_minutes row m cb (set_minutes m cb row).
Proof. unfold exercise_with_minutes. cbn. auto. Qed.

(** A new duration above 0: stored with a 200 answer, or refused with 500
    and nothing changed. *)
Lemma persist_minutes_cases (d : db) (s : Flask.session) (eid : string) (met : float)
    (w : json) (m : float) (row : Exercise.row) :
  exercises d !! eid = Some row ->
  fleb m (of_Z 0) = false ->
  (failed (persist_minutes d s eid met w m) d s \/
   (status (resp (persist_minutes d s eid met w m)) = 200 /\
    exists cb,
      calculate_burned_calories met w m = Ok cb /\
      payload (resp (persist_minutes d s eid met w m)) = ExerciseUpdated eid m cb /\
      (exists row', exercises (store (persist_minutes d s eid met w m)) !! eid = Some row' /\
                    exercise_with_minutes row m cb row') /\
      (forall k, k <> eid ->
         exercises (store (persist_minutes d s eid met w m)) !! k = exercises d !! k))) /\
  (forall cb, calculate_burned_calories met w m = Ok cb -> int64 cb ->
              status (resp (persist_minutes d s eid met w m)) = 200).
Proof.
  intros Hrow Hpos. unfold persist_minutes. rewrite Hpos.
  destruct (calculate_burned_calories met w m) as [cb | e] eqn:Hcb; cbn [rbind].
  - unfold update_minutes.
    destruct (bind_real m) as [m' |] eqn:Hm; cbn [rbind].
    + apply bind_real_ok in Hm. rewrite (real_stored_pos _ Hpos) in Hm. subst m'.
      destruct (bind_int cb) as [c' |] eqn:Hc; cbn [rbind].
      * apply bind_int_ok in Hc. subst c'. split; [| reflexivity]. right.
        split; [reflexivity |]. exists cb. split; [reflexivity |]. split; [reflexivity |].
        cbn [store respond exercises with_exercises]. split.
        -- exists (set_minutes m cb row). rewrite lookup_alter_eq, Hrow.
           split; [reflexivity | apply set_minutes_with].
        -- intros k Hk. apply lookup_alter_ne. congruence.
      * split; [left; reflexivity |].
        intros cb' [= <-] Hfit. rewrite (bind_int_int64 _ Hfit) in Hc. discriminate.
    + split; [left; reflexivity |].
      intros cb' _ _. exfalso. destruct m; try discriminate Hm.
      exact (calculate_burned_calories_nan met w cb Hcb).
  - split; [left; reflexivity |]. intros cb' Hcb'. discriminate.
Qed.

Lemma update_exercise_machine (d : db) (s : Flask.session) (sid eid user : string)
    (row : Exercise.row) (met : float) (w : json) :
  get_current_user_email s = Some user ->
  owned_exercise d eid sid user = Some row ->
  weight_unchecked d user = Ok w ->
  assoc (Exercise.type row) EXERCISE_METS = Some met ->
  fltb (of_Z 0) (Exercise.minutes row) = true ->
  exercise_update_spec d s sid eid row met w.
Proof.
  intros Hu Hown Hw Hmet Hpos.
  destruct (owned_exercise_inv _ _ _ _ _ Hown) as (Hrow & _).
  assert (Hinc : forall data, dict_get "action" data = JStr "increment" ->
            update_exercise d s sid eid data
            = persist_minutes d s eid met w (fadd (Exercise.minutes row) minute_change)).
  { intros data Ha. unfold update_exercise.
    rewrite Hu, Hown, Hw. cbv zeta. rewrite Hmet, Ha. reflexivity. }
  assert (Hdec : forall data, dict_get "action" data = JStr "decrement" ->
            update_exercise d s sid eid data
            = persist_minutes d s eid met w (fsub (Exercise.minutes row) minute_change)).
  { intros data Ha. unfold update_exercise.
    rewrite Hu, Hown, Hw. cbv zeta. rewrite Hmet, Ha. reflexivity. }
  assert (Hup : fleb (fadd (Exercise.minutes row) minute_change) (of_Z 0) = false)
    by (apply pos_not_le_zero, fadd_ten_pos; exact Hpos).
  split; [| split; [| split]].
  - intros data Ha. cbv zeta. rewrite (Hinc data Ha).
    exact (persist_minutes_cases _ _ _ _ _ _ _ Hrow Hup).
  - intros data Ha Hle. rewrite (Hdec data Ha). unfold persist_minutes. rewrite Hle.
    split; [reflexivity |]. cbn. apply lookup_delete_eq.
  - intros data Ha Hgt. cbv zeta. rewrite (Hdec data Ha).
    exact (persist_minutes_cases _ _ _ _ _ _ _ Hrow Hgt).
  - intros data [Hi Hd]. unfold update_exercise.
    rewrite Hu, Hown, Hw. cbv zeta. rewrite Hmet, Hi, Hd. reflexivity.
Qed.

(** C5 as stated fails: an increment does not always raise the quantity.
    After 92233720368547758 diet mixed drinks of 100 kcal are logged in a
    session, which is accepted, one more would make a total that an INTEGER
    column cannot hold: the increment is answered 500 and the count stays.
    After the weight is saved as the text "70", the increment of an exercise
    is answered 500 and the row stays: the calculator raises [TypeError]. *)
Lemma C5_increment_counterexample :
  status (resp (add_drink db2 sess0 "s2" (diet_form (Some "92233720368547758"%string))
                  "d9")) = 200 /\
  Drink.count <$> drinks db3 !! "d9"%string = Some 92233720368547758 /\
  update_drink db3 sess0 "s2" "d9" (action "increment")
  = respond 500 (Error "Internal server error") db3 sess0 /\
  Drink.count <$> drinks (store (update_drink db3 sess0 "s2" "d9" (action "increment")))
                    !! "d9"%string
  = Some 92233720368547758 /\
  status (resp (set_user_metrics db0 sess0 metrics_text)) = 200 /\
  update_exercise db4 sess0 "s1" "e1" (action "increment")
  = respond 500 (Error "Internal server error") db4 sess0 /\
  exercises (store (update_exercise db4 sess0 "s1" "e1" (action "increment")))
    !! "e1"%string = Some run30.
Proof.
  repeat split; vm_compute; reflexivity.
Qed.

(** C5 (amended): for a drink the caller owns (unit 1 on [count]) and an
    exercise the caller owns with a positive duration (step 10 on [minutes],
    with the caller's metrics stored and the row's type known):
    - 'increment' never removes the row: it is answered 200, and then the
      row holds the quantity raised by the unit and is otherwise the same
      (for an exercise, but for its [calories_burned], recomputed), or it is
      answered 500 and nothing is changed;
    - 'decrement' to a quantity of 0 or less deletes the row and the response
      reports the removal, with no quantity (for a drink, unless it is
      answered 500 and nothing is changed);
    - 'decrement' to a quantity above 0 is answered 200, and then the row
      holds the quantity lowered by the unit, or it is answered 500 and
      nothing is changed;
    - a change of a drink that is answered 200 leaves the other drinks as
      they were and stores the sum over the drinks of the session as its
      total; a change of an exercise that is answered 200 leaves the other
      exercises as they were;
    - a change is answered 200 whenever the new count and the new sum fit an
      INTEGER column, respectively whenever the calculator returns calories
      that fit one;
    - any other action value is answered 400 with the store unchanged. *)
Theorem C5_update_state_machine :
  (forall d s sid did user row,
     get_current_user_email s = Some user ->
     owned_drink d did sid user = Some row ->
     drink_update_spec d s sid did row) /\
  (forall d s sid eid user row met w,
     get_current_user_email s = Some user ->
     owned_exercise d eid sid user = Some row ->
     weight_unchecked d user = Ok w ->
     assoc (Exercise.type row) EXERCISE_METS = Some met ->
     fltb (of_Z 0) (Exercise.minutes row) = true ->
     exercise_update_spec d s sid eid row met w).
Proof.
  split.
  - intros d s sid did user row. apply update_drink_machine.
  - intros d s sid eid user row met w. apply update_exercise_machine.
Qed.

(** On the example store: two shots become three; the single beer is
    removed; two shots become one; 'reset' is refused; a run of 30 minutes
    becomes 40 minutes at 373 kcal, or 20 minutes at 187 kcal; a walk of 10
    minutes is removed. *)
Lemma C5_update_state_machine_witness :
  (exists row',
     drinks (store (update_drink db0 sess0 "s1" "d2" (action "increment"))) !! "d2"%string
     = Some row' /\ Drink.count row' = 3) /\
  (drinks (store (update_drink db0 sess0 "s1" "d1" (action "decrement"))) !! "d1"%string
   = None /\
   payload (resp (update_drink db0 sess0 "s1" "d1" (action "decrement")))
   = DrinkRemoved "d1") /\
  (exists row',
     drinks (store (update_drink db0 sess0 "s1" "d2" (action "decrement"))) !! "d2"%string
     = Some row' /\ Drink.count row' = 1) /\
  update_drink db0 sess0 "s1" "d2" (action "reset")
  = respond 400 (Error "Invalid action specified") db0 sess0 /\
  (exists row',
     exercises (store (update_exercise db1 sess0 "s1" "e1" (action "increment")))
       !! "e1"%string = Some row' /\
     Exercise.minutes row' = literal "40" /\ Exercise.calories_burned row' = 373) /\
  (exists row',
     exercises (store (update_exercise db1 sess0 "s1" "e1" (action "decrement")))
       !! "e1"%string = Some row' /\
     Exercise.minutes row' = literal "20" /\ Exercise.calories_burned row' = 187) /\
  exercises (store (update_exercise db1 sess0 "s1" "e2" (action "decrement")))
    !! "e2"%string = None /\
  update_exercise db1 sess0 "s1" "e2" (action "reset")
  = respond 400 (Error "Invalid action specified") db1 sess0.
Proof.
  destruct C5_update_state_machine as [Hdrink Hexercise].
  assert (Hu : get_current_user_email sess0 = Some alice) by (vm_compute; reflexivity).
  destruct (Hdrink db0 sess0 "s1"%string "d2"%string alice shots2 Hu)
    as (Hinc2 & _ & Hdec2 & Hother2); [vm_compute; reflexivity |].
  destruct (Hdrink db0 sess0 "s1"%string "d1"%string alice beer1 Hu)
    as (_ & Hdec1 & _ & _); [vm_compute; reflexivity |].
  destruct (Hexercise db1 sess0 "s1"%string "e1"%string alice run30
              (literal "8.0") (JInt 70) Hu)
    as (Hinc_e1 & _ & Hdec_e1 & _); try (vm_compute; reflexivity).
  destruct (Hexercise db1 sess0 "s1"%string "e2"%string alice walk10
              (literal "3.5") (JInt 70) Hu)
    as (_ & Hdec_e2 & _ & Hother_e2); try (vm_compute; reflexivity).
  split.
  { destruct (Hinc2 (action "increment") eq_refl)
      as [[Hf | (_ & _ & (row' & Hrow' & Hcount & _) & _)] _].
    - exfalso.
      assert (H : status (resp (update_drink db0 sess0 "s1" "d2" (action "increment")))
                  = 200) by (vm_compute; reflexivity).
      unfold failed in Hf. rewrite Hf in H. discriminate H.
    - exists row'. split; [exact Hrow' | exact Hcount]. }
  split.
  { destruct (Hdec1 (action "decrement") eq_refl)
      as [[Hf | (_ & Hpay & Hnone & _)] _].
    - vm_compute. discriminate.
    - exfalso.
      assert (H : status (resp (update_drink db0 sess0 "s1" "d1" (action "decrement")))
                  = 200) by (vm_compute; reflexivity).
      unfold failed in Hf. rewrite Hf in H. discriminate H.
    - split; assumption. }
  split.
  { destruct (Hdec2 (action "decrement") eq_refl)
      as [[Hf | (_ & _ & (row' & Hrow' & Hcount & _) & _)] _].
    - vm_compute. reflexivity.
    - exfalso.
      assert (H : status (resp (update_drink db0 sess0 "s1" "d2" (action "decrement")))
                  = 200) by (vm_compute; reflexivity).
      unfold failed in Hf. rewrite Hf in H. discriminate H.
    - exists row'. split; [exact Hrow' | exact Hcount]. }
  split.
  { apply (Hother2 (action "reset")). split; reflexivity. }
  split.
  { destruct (Hinc_e1 (action "increment") eq_refl)
      as [[Hf | (_ & cb & Hcb & _ & (row' & Hrow' & Hmin & Hburn & _) & _)] _].
    - exfalso.
      assert (H : status (resp (update_exercise db1 sess0 "s1" "e1" (action "increment")))
                  = 200) by (vm_compute; reflexivity).
      unfold failed in Hf. rewrite Hf in H. discriminate H.
    - exists row'. split; [exact Hrow' |]. split.
      + rewrite Hmin. vm_compute. reflexivity.
      + assert (E : calculate_burned_calories (literal "8.0") (JInt 70)
                      (fadd (Exercise.minutes run30) minute_change) = Ok 373)
          by (vm_compute; reflexivity).
        rewrite E in Hcb. injection Hcb as <-. exact Hburn. }
  split.
  { destruct (Hdec_e1 (action "decrement") eq_refl)
      as [[Hf | (_ & cb & Hcb & _ & (row' & Hrow' & Hmin & Hburn & _) & _)] _].
    - vm_compute. reflexivity.
    - exfalso.
      assert (H : status (resp (update_exercise db1 sess0 "s1" "e1" (action "decrement")))
                  = 200) by (vm_compute; reflexivity).
      unfold failed in Hf. rewrite Hf in H. discriminate H.
    - exists row'. split; [exact Hrow' |]. split.
      + rewrite Hmin. vm_compute. reflexivity.
      + assert (E : calculate_burned_calories (literal "8.0") (JInt 70)
                      (fsub (Exercise.minutes run30) minute_change) = Ok 187)
          by (vm_compute; reflexivity).
        rewrite E in Hcb. injection Hcb as <-. exact Hburn. }
  split.
  { apply (Hdec_e2 (action "decrement") eq_refl). vm_compute. reflexivity. }
  apply (Hother_e2 (action "reset")). split; reflexivity.
Defined.
